(** * csrest: the request engine of the Cobalt Strike REST client

    A shallow embedding of [client.go], [tasks.go] and the parts of
    [types.go] they use: the single-attempt transport ([doRequestOnce]),
    the retry loop around it ([doRequest]), [Login], [GetTask] and the
    polling loop [WaitForTaskCompletion].

    Conventions.
    - Go's [int] is a 64-bit two's-complement integer: values are in [Z]
      and the two additions of the retry loop are wrapped by [wrap64].
    - Instants and [time.Duration]s are [Z], in nanoseconds.
    - Everything outside the package (encoding/json, net/http, the network,
      the choice [select] makes between two ready channels, the time the
      program takes from one look at the clock to the next) is an input
      of the model: the type classes [GoRuntime], [Marshal], [Unmarshal]
      and the [httpClient] field of the client.
    - Effects are explicit: every operation that blocks, sends or logs
      takes a [World] and returns the next one. *)

From Stdlib Require Import ZArith String List Bool Lia DecimalString.
From stdpp Require Import base gmap strings.

Open Scope Z_scope.

(** ** Values returned by library calls: a value or the text of an error *)

Inductive or_err (A : Type) : Type :=
| Val (a : A)
| Fail (msg : string).
Arguments Val {A} a.
Arguments Fail {A} msg.

(** ** types.go *)

Record APIError : Type := mkAPIError {
  StatusCode : Z;
  Message : string;
  Retryable : bool
}.

Record LoginRequest : Type := mkLoginRequest {
  Username : string;
  Password : string;
  DurationMs : Z
}.

Record AuthDto : Type := mkAuthDto {
  AccessToken : string;
  TokenType : string;
  ExpiresIn : Z
}.

Definition TaskStatus : Type := string.
Definition TaskStatusNotFound : TaskStatus := "NOT_FOUND".
Definition TaskStatusInProgress : TaskStatus := "IN_PROGRESS".
Definition TaskStatusCompleted : TaskStatus := "COMPLETED".
Definition TaskStatusFailed : TaskStatus := "FAILED".
Definition TaskStatusOutputReceived : TaskStatus := "OUTPUT_RECEIVED".

Record ErrorMessageDto : Type := mkErrorMessageDto {
  ErrMessage : string;
  ErrTime : Z
}.

(** [TaskDetailDto] with the embedded [TaskSummaryDto] flattened; the
    entries of [Result] keep their values as JSON text. *)
Record TaskDetailDto : Type := mkTaskDetailDto {
  TaskID : string;
  BID : string;
  JID : Z;
  TaskCommand : string;
  User : string;
  Created : Z;
  Updated : option Z;
  taskStatus : TaskStatus;
  Result : list (gmap string string);
  Error : list ErrorMessageDto;
  Tactics : list string
}.

(** The zero value a [var task TaskDetailDto] starts with. *)
Definition zeroTaskDetailDto : TaskDetailDto :=
  mkTaskDetailDto "" "" 0 "" "" 0 None "" [] [] [].

Definition zeroAuthDto : AuthDto := mkAuthDto "" "" 0.

(** ** Go error values

    The dynamic types an [error] of this package can have: [*APIError],
    the two errors of a context, an error made by [fmt.Errorf] without
    [%w], and one made with [%w], which remembers its operand.  A nil
    [error] is [None] in [option GoError]. *)

Inductive CtxError : Type := Canceled | DeadlineExceeded.

#[warnings="-register-all"]
Inductive GoError : Type :=
| ErrAPI (e : APIError)
| ErrCtx (e : CtxError)
| ErrNew (msg : string)
| ErrWrap (msg : string) (cause : option GoError).

Definition CtxError_text (e : CtxError) : string :=
  match e with
  | Canceled => "context canceled"
  | DeadlineExceeded => "context deadline exceeded"
  end.

(** [err.Error()]; for [*APIError] it is types.go's [Error] method. *)
Definition Error_text (e : GoError) : string :=
  match e with
  | ErrAPI a => Message a
  | ErrCtx c => CtxError_text c
  | ErrNew msg => msg
  | ErrWrap msg _ => msg
  end.

(** [errors.Unwrap]. *)
Definition Unwrap (e : GoError) : option GoError :=
  match e with
  | ErrWrap _ cause => cause
  | _ => None
  end.

(** [fmt.Errorf(prefix + "%w", err)]: the text of a nil operand under
    [%w] is [%!w(<nil>)], and the error made then unwraps to nil. *)
Definition Errorf_w (prefix : string) (err : option GoError) : GoError :=
  ErrWrap (prefix +:+ match err with
                      | Some e => Error_text e
                      | None => "%!w(<nil>)"
                      end) err.

(** What a function that returns a pointer and an error returns here: a
    value and a nil error, or a nil pointer and an error. *)
Inductive returned (A : Type) : Type :=
| Ok (a : A)
| Err (err : GoError).
Arguments Ok {A} a.
Arguments Err {A} err.

(** The verb [%d]. *)
Definition itoa (z : Z) : string := NilZero.string_of_int (Z.to_int z).

(** ** Go's [int] *)

Definition max_int : Z := 2 ^ 63 - 1.
Definition min_int : Z := - 2 ^ 63.
Definition wrap64 (z : Z) : Z := (z + 2 ^ 63) mod 2 ^ 64 - 2 ^ 63.

(** ** Time and contexts *)

Definition Second : Z := 1000000000.

(** A context is done from the instant [doneAt] on (never, when [None]);
    [ctx.Err()] is then [doneWith]. *)
Record Context : Type := mkContext {
  doneAt : option Z;
  doneWith : CtxError
}.

Definition Background : Context := mkContext None Canceled.

Definition ctx_Err (ctx : Context) (t : Z) : option GoError :=
  match doneAt ctx with
  | Some d => if d <=? t then Some (ErrCtx (doneWith ctx)) else None
  | None => None
  end.

(** ** HTTP requests and the client *)

Record Request : Type := mkRequest {
  Method : string;
  URL : string;
  Header : gmap string (list string);
  Body : option string
}.

(** [req.Header.Set(key, value)]. *)
Definition Header_Set (req : Request) (key value : string) : Request :=
  mkRequest (Method req) (URL req) (<[key := [value]]> (Header req)) (Body req).

(** [req.Header.Get(key)]. *)
Definition Header_Get (req : Request) (key : string) : string :=
  match Header req !! key with
  | Some (v :: _) => v
  | _ => ""
  end.

(** What [httpClient.Do] followed by [io.ReadAll] gives: no response at
    all, or a status with the body or the error of reading it. *)
Inductive Reply : Type :=
| NoResponse (err : string)
| Response (status : Z) (read : or_err string).

(** [took] is the time the exchange takes, in nanoseconds. *)
Record RoundTrip : Type := mkRoundTrip {
  took : N;
  reply : Reply
}.

(** [httpClient] is the behaviour of the [*http.Client]: its answer to the
    request it is given, by the number of requests it was given before. *)
Record Client : Type := mkClient {
  baseURL : string;
  httpClient : nat -> Request -> RoundTrip;
  token : string;
  maxRetries : Z;
  retryDelay : Z
}.

(** [NewClient]; [transport] is the behaviour of the default
    [http.Client], whose timeout is thirty seconds. *)
Definition NewClient (host : string) (port : Z)
    (transport : nat -> Request -> RoundTrip) : Client :=
  mkClient ("https://" +:+ host +:+ ":" +:+ itoa port) transport "" 3 (2 * Second).

Definition SetHTTPClient (c : Client) (client : nat -> Request -> RoundTrip) : Client :=
  mkClient (baseURL c) client (token c) (maxRetries c) (retryDelay c).

Definition SetRetryPolicy (c : Client) (maxRetries' retryDelay' : Z) : Client :=
  mkClient (baseURL c) (httpClient c) (token c) maxRetries' retryDelay'.

Definition setToken (c : Client) (tok : string) : Client :=
  mkClient (baseURL c) (httpClient c) tok (maxRetries c) (retryDelay c).

(** ** The world

    [now] is the clock, [sent] the requests handed to the HTTP client so
    far, oldest first.  [trace] is ghost state: the calls of
    [doRequestOnce], the retry delays that elapsed and the ticks received,
    oldest first. *)

Inductive Event : Type :=
| EvAttempt (attempt : Z)
| EvDelay (d : Z)
| EvTick (at_ : Z).

Record World : Type := mkWorld {
  now : Z;
  sent : list Request;
  trace : list Event
}.

Definition log (ev : Event) (w : World) : World :=
  mkWorld (now w) (sent w) (trace w ++ [ev]).

Definition advance_to (t : Z) (w : World) : World :=
  mkWorld t (sent w) (trace w).

(** ** What the model takes from outside the package *)

Class GoRuntime : Type := {
  (** [http.StatusText] *)
  http_StatusText : Z -> string;
  (** the error of [http.NewRequestWithContext] for a method and a URL,
      if it has one *)
  http_NewRequest_error : string -> string -> option string;
  (** the choice of a [select] whose two cases are ready at the same
      instant: [true] takes the first case *)
  select_first : Z -> bool;
  (** the time the program takes from the instant at which it has read
      the clock, or was woken by a tick, to its next statement: the clock
      does not go back, and where it has the resolution of a nanosecond
      this time is not zero *)
  lapse : Z -> N
}.

(** The instant of the statement that follows a look at the clock or a
    wake-up at the instant [t]. *)
Definition read_after `{GoRuntime} (t : Z) : Z := t + Z.of_N (lapse t).

(** The world as that statement finds it. *)
Definition elapse `{GoRuntime} (w : World) : World :=
  advance_to (read_after (now w)) w.

Class Marshal (B : Type) : Type := json_Marshal : B -> or_err string.
(** [json.Unmarshal(data, v)]: the error, nil for [None], and the value
    [v] points to afterwards.  On an error too the value can have
    changed: the decoder stores what it has decoded before it reports a
    value that does not fit. *)
Class Unmarshal (R : Type) : Type := json_Unmarshal : string -> R -> option string * R.

Definition http_NewRequestWithContext `{GoRuntime}
    (ctx : Context) (method url : string) (body : option string) : or_err Request :=
  match http_NewRequest_error method url with
  | Some err => Fail err
  | None => Val (mkRequest method url ∅ body)
  end.

(** ** client.go: one attempt *)

(** Lines 98-109: the request body, nil for a nil [body]. *)
Definition marshalBody {B} `{Marshal B} (body : option B) : or_err (option string) :=
  match body with
  | None => Val None
  | Some b =>
      match json_Marshal b with
      | Val jsonData => Val (Some jsonData)
      | Fail err => Fail err
      end
  end.

(** Lines 120-126: the two headers; [hasBody] is [body != nil]. *)
Definition setHeaders (c : Client) (hasBody requireAuth : bool) (req : Request) : Request :=
  let req := if hasBody then Header_Set req "Content-Type" "application/json" else req in
  if requireAuth && negb (String.eqb (token c) "")
  then Header_Set req "Authorization" ("Bearer " +:+ token c)
  else req.

(** Lines 98-126: the request that is handed to the HTTP client, or the
    error returned before anything is sent. *)
Definition buildRequest `{GoRuntime} {B} `{Marshal B}
    (c : Client) (ctx : Context) (method path : string) (body : option B)
    (requireAuth : bool) : APIError + Request :=
  match marshalBody body with
  | Fail err => inl (mkAPIError 0 ("failed to marshal request: " +:+ err) false)
  | Val reqBody =>
      match http_NewRequestWithContext ctx method (baseURL c +:+ path) reqBody with
      | Fail err => inl (mkAPIError 0 ("failed to create request: " +:+ err) false)
      | Val req =>
          inr (setHeaders c (bool_decide (is_Some body)) requireAuth req)
      end
  end.

(** Lines 128-170: what is made of the client's answer.  The result is the
    returned error and the value [result] points to afterwards: only the
    decoder of line 161 writes to it, and what it has written stays when
    it fails. *)
Definition readReply `{GoRuntime} {R} `{Unmarshal R}
    (rp : Reply) (result : option R) : option GoError * option R :=
  match rp with
  | NoResponse err =>
      (Some (ErrAPI (mkAPIError 0 ("request failed: " +:+ err) true)), result)
  | Response status (Fail err) =>
      (Some (ErrAPI (mkAPIError status ("failed to read response: " +:+ err) true)), result)
  | Response status (Val respBody) =>
      if (status <? 200) || (status >=? 300) then
        let retryable := (status >=? 500) || (status =? 429) in
        let msg := respBody in
        let msg := if String.eqb msg ""
                   then "HTTP " +:+ itoa status +:+ ": " +:+ http_StatusText status
                   else msg in
        (Some (ErrAPI (mkAPIError status msg retryable)), result)
      else
        match result with
        | Some r =>
            if (0 <? String.length respBody)%nat then
              match json_Unmarshal respBody r with
              | (Some err, r') =>
                  (Some (ErrAPI (mkAPIError status
                                   ("failed to unmarshal response: " +:+ err) false)),
                   Some r')
              | (None, r') => (None, Some r')
              end
            else (None, result)
        | None => (None, result)
        end
  end.

(** [doRequestOnce]. *)
Definition doRequestOnce `{GoRuntime} {B R} `{Marshal B} `{Unmarshal R}
    (c : Client) (ctx : Context) (method path : string) (body : option B)
    (result : option R) (requireAuth : bool) (w : World)
  : World * (option GoError * option R) :=
  match buildRequest c ctx method path body requireAuth with
  | inl e => (w, (Some (ErrAPI e), result))
  | inr req =>
      let rt := httpClient c (length (sent w)) req in
      let w := mkWorld (now w + Z.of_N (took rt)) (sent w ++ [req]) (trace w) in
      (w, readReply (reply rt) result)
  end.

(** [isNonRetryableError]. *)
Definition isNonRetryableError (err : GoError) : bool :=
  match err with
  | ErrAPI apiErr => negb (Retryable apiErr)
  | _ => false
  end.

(** ** Waiting on two channels

    [select] over [ctx.Done()] and a channel that becomes ready at the
    instant [ready], entered at the instant [entered]: the case whose
    channel is ready first is taken, at that instant; when both are ready
    at the same instant the runtime chooses. *)

Inductive Selected : Type :=
| DoneFirst (t : Z)
| OtherFirst (t : Z).

Definition select_done_or `{GoRuntime} (ctx : Context) (entered ready : Z) : Selected :=
  let t := Z.max entered ready in
  match doneAt ctx with
  | None => OtherFirst t
  | Some d =>
      let d := Z.max entered d in
      if d <? t then DoneFirst d
      else if t <? d then OtherFirst t
      else if select_first t then DoneFirst d else OtherFirst t
  end.

(** ** client.go: the retry loop *)

(** Line 93: the error returned when the loop ends. *)
Definition retryExhausted (c : Client) (lastErr : option GoError) : GoError :=
  Errorf_w ("request failed after " +:+ itoa (wrap64 (maxRetries c + 1))
              +:+ " attempts: ") lastErr.

Section Requests.
Context `{GoRuntime} {B R : Type} `{Marshal B} `{Unmarshal R}.
Variables (c : Client) (ctx : Context) (method path : string).
Variables (body : option B) (requireAuth : bool).

(** Lines 67-73: the wait before an attempt after the first.  [inl] is
    the return of the [ctx.Done()] case. *)
Definition retryWait (attempt : Z) (w : World) : World + World :=
  if attempt >? 0 then
    match select_done_or ctx (now w) (now w + retryDelay c) with
    | DoneFirst t => inl (advance_to t w)
    | OtherFirst t => inr (log (EvDelay (retryDelay c)) (advance_to t w))
    end
  else inr w.

(** The [for] loop of [doRequest] from the test of its condition on,
    and the return after it.  [result] is the value the pointer
    [result] points to.  [None]: the loop is still running when [fuel]
    iterations are over. *)
Fixpoint attempts (fuel : nat) (attempt : Z) (lastErr : option GoError)
    (result : option R) (w : World)
  : option (World * (option GoError * option R)) :=
  match fuel with
  | O => None
  | S fuel =>
      if attempt <=? maxRetries c then
        match retryWait attempt w with
        | inl w => Some (w, (ctx_Err ctx (now w), result))
        | inr w =>
            match doRequestOnce c ctx method path body result requireAuth
                    (log (EvAttempt attempt) w) with
            | (w, (None, result)) => Some (w, (None, result))
            | (w, (Some err, result)) =>
                let lastErr := Some err in
                if isNonRetryableError err then Some (w, (lastErr, result))
                else
                  match ctx_Err ctx (now w) with
                  | Some cerr => Some (w, (Some cerr, result))
                  | None => attempts fuel (wrap64 (attempt + 1)) lastErr result w
                  end
            end
        end
      else Some (w, (Some (retryExhausted c lastErr), result))
  end.

Definition doRequest (fuel : nat) (result : option R) (w : World)
  : option (World * (option GoError * option R)) :=
  attempts fuel 0 None result w.
End Requests.

(** [Login]: what it returns, and the client afterwards.  The body is a
    [LoginRequest], the result an [AuthDto] that starts as its zero
    value. *)
Definition Login `{GoRuntime} `{Marshal LoginRequest} `{Unmarshal AuthDto}
    (fuel : nat) (c : Client) (ctx : Context) (username password : string)
    (durationMs : Z) (w : World)
  : option (World * Client * returned AuthDto) :=
  let req := mkLoginRequest username password durationMs in
  match doRequest c ctx "POST" "/api/auth/login" (Some req) false fuel
          (Some zeroAuthDto) w with
  | None => None
  | Some (w, (Some err, _)) =>
      Some (w, c, Err (Errorf_w "login failed: " (Some err)))
  | Some (w, (None, auth)) =>
      let auth := default zeroAuthDto auth in
      Some (w, setToken c (AccessToken auth), Ok auth)
  end.

(** ** tasks.go *)

(** A request without a body: [body] is nil, nothing is marshalled. *)
Inductive NoBody : Type := .

#[export] Instance NoBody_Marshal : Marshal NoBody :=
  fun b => match b with end.

(** [GetTask]. *)
Definition GetTask `{GoRuntime} `{Unmarshal TaskDetailDto}
    (fuel : nat) (c : Client) (ctx : Context) (taskID : string) (w : World)
  : option (World * returned TaskDetailDto) :=
  let path := "/api/v1/tasks/" +:+ taskID in
  match doRequest c ctx "GET" path (@None NoBody) true fuel
          (Some zeroTaskDetailDto) w with
  | None => None
  | Some (w, (Some err, _)) =>
      Some (w, Err (Errorf_w "failed to get task: " (Some err)))
  | Some (w, (None, task)) =>
      Some (w, Ok (default zeroTaskDetailDto task))
  end.

(** A [time.Ticker]: [when] is the instant of the next tick.  A tick that
    is due waits in the channel until it is received; the ticks that fall
    due while one waits are dropped, and the next one keeps the period's
    grid ([when += period * (1 + (t - when) / period)] in the runtime). *)
Record Ticker : Type := mkTicker {
  when : Z;
  period : Z
}.

Definition NewTicker (t d : Z) : Ticker := mkTicker (t + d) d.

Definition Ticker_received (tk : Ticker) (t : Z) : Ticker :=
  mkTicker (when tk + period tk * (1 + (t - when tk) / period tk)) (period tk).

(** Lines 71-73. *)
Definition isTerminal (s : TaskStatus) : bool :=
  String.eqb s TaskStatusCompleted
  || String.eqb s TaskStatusOutputReceived
  || String.eqb s TaskStatusFailed.

Definition timeoutError : GoError := ErrNew "timeout waiting for task completion".

Section Polling.
Context `{GoRuntime} `{Unmarshal TaskDetailDto}.
Variables (rfuel : nat) (c : Client) (ctx : Context) (taskID : string).

(** The [for] loop of [WaitForTaskCompletion]; [rfuel] is the fuel of
    every [GetTask].  A tick is received at the instant [t]; the
    [time.Now()] of line 59 is the statement that follows, and the fetch
    starts from its reading.  The debug line printed after a fetch is
    not part of the world. *)
Fixpoint poll (fuel : nat) (deadline : Z) (ticker : Ticker) (w : World)
  : option (World * (option TaskDetailDto * option GoError)) :=
  match fuel with
  | O => None
  | S fuel =>
      match select_done_or ctx (now w) (when ticker) with
      | DoneFirst t =>
          let w := advance_to t w in
          Some (w, (None, ctx_Err ctx (now w)))
      | OtherFirst t =>
          let w := elapse (log (EvTick t) (advance_to t w)) in
          let ticker := Ticker_received ticker t in
          if now w >? deadline then Some (w, (None, Some timeoutError))
          else
            match GetTask rfuel c ctx taskID w with
            | None => None
            | Some (w, Err err) => Some (w, (None, Some err))
            | Some (w, Ok task) =>
                if isTerminal (taskStatus task)
                then Some (w, (Some task, None))
                else poll fuel deadline ticker w
            end
      end
  end.

(** [WaitForTaskCompletion]: line 50 reads the clock for the deadline,
    line 51 is the statement that follows and starts the ticker. *)
Definition WaitForTaskCompletion (fuel : nat) (timeout : Z) (w : World)
  : option (World * (option TaskDetailDto * option GoError)) :=
  let deadline := now w + timeout in
  let w := elapse w in
  let ticker := NewTicker (now w) (2 * Second) in
  poll fuel deadline ticker w.
End Polling.

(** ** types.go: the shapes of the endpoint functions *)

Module AsyncCommandResponse.
Record t : Type := mk {
  Name : string;
  Status : string;
  Message : string;
  StatusURL : string;
  TaskID : string
}.
Definition zero : t := mk "" "" "" "" "".
End AsyncCommandResponse.

Module TaskSummaryDto.
Record t : Type := mk {
  TaskID : string;
  BID : string;
  JID : Z;
  TaskCommand : string;
  User : string;
  Created : Z;
  Updated : option Z;
  TaskStatus : TaskStatus
}.
End TaskSummaryDto.

Module SleepDto.
Record t : Type := mk {
  Sleep : Z;
  Jitter : Z
}.
End SleepDto.

Module BeaconDto.
Record t : Type := mk {
  BID : string;
  PBID : string;
  Computer : string;
  User : string;
  Impersonated : string;
  IsAdmin : bool;
  Process : string;
  PID : Z;
  Host : string;
  Internal : string;
  External : string;
  OS : string;
  Version : string;
  Build : Z;
  Charset : string;
  SystemArch : string;
  BeaconArch : string;
  Session : string;
  Listener : string;
  PivotHint : string;
  Port : Z;
  Note : string;
  Color : string;
  Alive : bool;
  LinkState : string;
  LastCheckinTime : Z;
  LastCheckinMs : Z;
  LastCheckinFormatted : string;
  Sleep : SleepDto.t;
  SupportsSleep : bool
}.
Definition zero : t :=
  mk "" "" "" "" "" false "" 0 "" "" "" "" "" 0 "" "" "" "" "" "" 0 "" "" false ""
     0 0 "" (SleepDto.mk 0 0) false.
End BeaconDto.

(** The implementations of the interface [BOFArgument]. *)
Inductive BOFArgument : Type :=
| BinaryArg (type value : string)
| IntArg (type : string) (value : Z)
| ShortArg (type : string) (value : Z)
| StringArg (type value : string)
| WStringArg (type value : string).

Module InlineExecuteStringDto.
Record t : Type := mk {
  BOF : string;
  Entrypoint : string;
  Arguments : string;
  Files : gmap string string
}.
End InlineExecuteStringDto.

Module InlineExecutePackedDto.
Record t : Type := mk {
  BOF : string;
  Entrypoint : string;
  Arguments : string;
  Files : gmap string string
}.
End InlineExecutePackedDto.

Module InlineExecutePackDto.
Record t : Type := mk {
  BOF : string;
  Entrypoint : string;
  Arguments : list BOFArgument;
  Files : gmap string string
}.
End InlineExecutePackDto.

Module PowerShellDto.
Record t : Type := mk {
  Commandlet : string;
  Arguments : string
}.
End PowerShellDto.

Module UploadDto.
Record t : Type := mk {
  File : string;
  Files : gmap string string
}.
End UploadDto.

Inductive EmptyDto : Type := mkEmptyDto.

(** A value of a [map[string]interface{}] literal of the package. *)
Inductive Scalar : Type :=
| IntValue (z : Z)
| StringValue (s : string).

(** ** The endpoint functions

    Every endpoint function of the package ends the same way: [doRequest]
    with [requireAuth] true and a result that starts as its zero value;
    its error is wrapped under the function's own text, its result
    returned otherwise.  [endpoint] is that common end; the functions
    below give it their method, path, body and text. *)

Definition endpoint `{GoRuntime} {B R : Type} `{Marshal B} `{Unmarshal R}
    (fuel : nat) (c : Client) (ctx : Context) (method path : string)
    (body : option B) (zero : R) (failed : string) (w : World)
  : option (World * returned R) :=
  match doRequest c ctx method path body true fuel (Some zero) w with
  | None => None
  | Some (w, (Some err, _)) => Some (w, Err (Errorf_w failed (Some err)))
  | Some (w, (None, r)) => Some (w, Ok (default zero r))
  end.

Section Endpoints.
Context `{GoRuntime}.
Context `{Unmarshal (list TaskSummaryDto.t)} `{Unmarshal (list TaskDetailDto)}.
Context `{Unmarshal (list BeaconDto.t)} `{Unmarshal BeaconDto.t}.
Context `{Unmarshal AsyncCommandResponse.t}.
Context `{Marshal InlineExecuteStringDto.t} `{Marshal InlineExecutePackedDto.t}.
Context `{Marshal InlineExecutePackDto.t} `{Marshal PowerShellDto.t}.
Context `{Marshal UploadDto.t} `{Marshal EmptyDto}.
Context `{Marshal (gmap string string)} `{Marshal (gmap string Scalar)}.
Variables (fuel : nat) (c : Client) (ctx : Context).

(** tasks.go *)

Definition ListTasks (w : World) : option (World * returned (list TaskSummaryDto.t)) :=
  endpoint fuel c ctx "GET" "/api/v1/tasks" (@None NoBody) [] "failed to list tasks: " w.

Definition GetBeaconTasksSummary (bid : string) (w : World)
  : option (World * returned (list TaskSummaryDto.t)) :=
  let path := "/api/v1/beacons/" +:+ bid +:+ "/tasks/summary" in
  endpoint fuel c ctx "GET" path (@None NoBody) [] "failed to get beacon tasks: " w.

Definition GetBeaconTasksDetail (bid : string) (w : World)
  : option (World * returned (list TaskDetailDto)) :=
  let path := "/api/v1/beacons/" +:+ bid +:+ "/tasks/detail" in
  endpoint fuel c ctx "GET" path (@None NoBody) []
    "failed to get beacon task details: " w.

(** The beacon functions. *)

Definition ListBeacons (w : World) : option (World * returned (list BeaconDto.t)) :=
  endpoint fuel c ctx "GET" "/api/v1/beacons" (@None NoBody) []
    "failed to list beacons: " w.

Definition GetBeacon (bid : string) (w : World) : option (World * returned BeaconDto.t) :=
  endpoint fuel c ctx "GET" ("/api/v1/beacons/" +:+ bid) (@None NoBody)
    BeaconDto.zero "failed to get beacon: " w.

Definition ExecuteBOFString (bid : string) (req : InlineExecuteStringDto.t) (w : World)
  : option (World * returned AsyncCommandResponse.t) :=
  let path := "/api/v1/beacons/" +:+ bid +:+ "/execute/bof/string" in
  endpoint fuel c ctx "POST" path (Some req) AsyncCommandResponse.zero
    "failed to execute BOF: " w.

Definition ExecuteBOFPacked (bid : string) (req : InlineExecutePackedDto.t) (w : World)
  : option (World * returned AsyncCommandResponse.t) :=
  let path := "/api/v1/beacons/" +:+ bid +:+ "/execute/bof/packed" in
  endpoint fuel c ctx "POST" path (Some req) AsyncCommandResponse.zero
    "failed to execute BOF: " w.

Definition ExecuteBOFPack (bid : string) (req : InlineExecutePackDto.t) (w : World)
  : option (World * returned AsyncCommandResponse.t) :=
  let path := "/api/v1/beacons/" +:+ bid +:+ "/execute/bof/pack" in
  endpoint fuel c ctx "POST" path (Some req) AsyncCommandResponse.zero
    "failed to execute BOF: " w.

Definition GetUID (bid : string) (w : World)
  : option (World * returned AsyncCommandResponse.t) :=
  let path := "/api/v1/beacons/" +:+ bid +:+ "/execute/getUid" in
  endpoint fuel c ctx "POST" path (Some mkEmptyDto) AsyncCommandResponse.zero
    "failed to execute getuid: " w.

Definition GetSystem (bid : string) (w : World)
  : option (World * returned AsyncCommandResponse.t) :=
  let path := "/api/v1/beacons/" +:+ bid +:+ "/execute/getSystem" in
  endpoint fuel c ctx "POST" path (Some mkEmptyDto) AsyncCommandResponse.zero
    "failed to execute getsystem: " w.

(** commands.go *)

Definition ExecuteShell (bid command : string) (w : World)
  : option (World * returned AsyncCommandResponse.t) :=
  let path := "/api/v1/beacons/" +:+ bid +:+ "/spawn/command/shell" in
  let req : gmap string string := {["command" := command]} in
  endpoint fuel c ctx "POST" path (Some req) AsyncCommandResponse.zero
    "failed to execute shell command: " w.

Definition ExecutePowerShell (bid command : string) (w : World)
  : option (World * returned AsyncCommandResponse.t) :=
  let path := "/api/v1/beacons/" +:+ bid +:+ "/spawn/powershell" in
  let req := PowerShellDto.mk command "" in
  endpoint fuel c ctx "POST" path (Some req) AsyncCommandResponse.zero
    "failed to execute powershell command: " w.

Definition Download (bid remotePath : string) (w : World)
  : option (World * returned AsyncCommandResponse.t) :=
  let path := "/api/v1/beacons/" +:+ bid +:+ "/execute/download" in
  let req : gmap string string := {["path" := remotePath]} in
  endpoint fuel c ctx "POST" path (Some req) AsyncCommandResponse.zero
    "failed to download file: " w.

Definition Screenshot (bid : string) (pid : Z) (arch : string) (w : World)
  : option (World * returned AsyncCommandResponse.t) :=
  let path := "/api/v1/beacons/" +:+ bid +:+ "/inject/screenshot" in
  let req : gmap string Scalar :=
    <["pid" := IntValue pid]> (<["arch" := StringValue arch]> ∅) in
  endpoint fuel c ctx "POST" path (Some req) AsyncCommandResponse.zero
    "failed to capture screenshot: " w.

Definition ScreenshotSpawn (bid : string) (w : World)
  : option (World * returned AsyncCommandResponse.t) :=
  let path := "/api/v1/beacons/" +:+ bid +:+ "/spawn/screenshot" in
  endpoint fuel c ctx "POST" path (Some mkEmptyDto) AsyncCommandResponse.zero
    "failed to capture screenshot: " w.
End Endpoints.

(** The files: [os.ReadFile], [base64.StdEncoding.EncodeToString] and
    [filepath.Base] are taken from outside. *)
Class GoFiles : Type := {
  os_ReadFile : string -> or_err string;
  base64_EncodeToString : string -> string;
  filepath_Base : string -> string
}.

(** [readAndEncodeFile]. *)
Definition readAndEncodeFile `{GoFiles} (filePath : string) : or_err string :=
  match os_ReadFile filePath with
  | Fail err => Fail err
  | Val data => Val (base64_EncodeToString data)
  end.

(** The body [Upload] sends for a file. *)
Definition uploadRequest `{GoFiles} (localPath fileData : string) : UploadDto.t :=
  let filename := filepath_Base localPath in
  UploadDto.mk ("@files/" +:+ filename) {[filename := fileData]}.

(** [Upload]. *)
Definition Upload `{GoRuntime} `{GoFiles} `{Marshal UploadDto.t}
    `{Unmarshal AsyncCommandResponse.t}
    (fuel : nat) (c : Client) (ctx : Context) (bid localPath : string) (w : World)
  : option (World * returned AsyncCommandResponse.t) :=
  let path := "/api/v1/beacons/" +:+ bid +:+ "/execute/upload" in
  match readAndEncodeFile localPath with
  | Fail err =>
      Some (w, Err (Errorf_w "failed to read file: " (Some (ErrNew err))))
  | Val fileData =>
      let req := uploadRequest localPath fileData in
      endpoint fuel c ctx "POST" path (Some req) AsyncCommandResponse.zero
        "failed to upload file: " w
  end.

(** ** Sample inputs

    A runtime, codecs and clients to run the model on.  The runtime
    takes a microsecond from one look at the clock to the next statement.
    The codecs are toys: a task's body is its status text, a login's
    body its access token. *)

Module Sample.
Definition StatusText (code : Z) : string :=
  match code with
  | 400 => "Bad Request"
  | 401 => "Unauthorized"
  | 403 => "Forbidden"
  | 404 => "Not Found"
  | 429 => "Too Many Requests"
  | 500 => "Internal Server Error"
  | 502 => "Bad Gateway"
  | 503 => "Service Unavailable"
  | _ => ""
  end.

Definition runtime : GoRuntime :=
  {| http_StatusText := StatusText;
     http_NewRequest_error := fun method _ =>
       if String.eqb method "GET" || String.eqb method "POST" then None
       else Some "net/http: invalid method";
     select_first := fun _ => true;
     lapse := fun _ => 1000%N |}.

Inductive Payload : Type :=
| Text (s : string)
| Channel.

Definition marshalPayload : Marshal Payload :=
  fun b => match b with
           | Text s => Val s
           | Channel => Fail "json: unsupported type: chan int"
           end.

Definition marshalLogin : Marshal LoginRequest :=
  fun r => Val (Username r +:+ ":" +:+ Password r).

Definition unmarshalAuth : Unmarshal AuthDto :=
  fun data _ => (None, mkAuthDto data "Bearer" 3600).

Definition unmarshalTask : Unmarshal TaskDetailDto :=
  fun data task =>
    if String.eqb data "{" then (Some "unexpected end of JSON input", task)
    else (None, mkTaskDetailDto (TaskID task) (BID task) (JID task)
                  (TaskCommand task) (User task) (Created task) (Updated task)
                  data (Result task) (Error task) (Tactics task)).

(** A client that answers its n-th request with the n-th entry of
    [script], and with [rest] after the script's end. *)
Definition client (script : list RoundTrip) (rest : RoundTrip)
    (tok : string) (retries delay : Z) : Client :=
  mkClient "https://teamserver:50443" (fun n _ => nth n script rest)
    tok retries delay.

Definition answers (ms : N) (status : Z) (body : string) : RoundTrip :=
  mkRoundTrip (ms * 1000000) (Response status (Val body)).

Definition refused : RoundTrip :=
  mkRoundTrip 0 (NoResponse "dial tcp: connection refused").

Definition start : World := mkWorld 0 [] [].

Definition cancelled : Context := mkContext (Some 0) Canceled.

(** Refuses the connection, then is unavailable, then answers. *)
Definition flaky : Client :=
  client [refused; answers 10 503 ""] (answers 5 200 "IN_PROGRESS")
    "tok" 3 (2 * Second).

(** Refuses every connection; two retries. *)
Definition down : Client := client [] refused "tok" 2 (2 * Second).

(** Answers the login with a token; the client after that login. *)
Definition loginServer : Client :=
  client [answers 20 200 "s3cr3t"] refused "" 3 (2 * Second).

Definition loggedIn : Client := setToken loginServer "s3cr3t".

(** The world after that login, from [start]. *)
Definition afterLogin : World :=
  match @Login runtime marshalLogin unmarshalAuth 1 loginServer Background
          "operator" "hunter2" 0 start with
  | Some (w, _, _) => w
  | None => start
  end.

(** A client that gives every request the same answer. *)
Definition steady (rt : RoundTrip) (tok : string) (retries delay : Z) : Client :=
  mkClient "https://teamserver:50443" (fun _ _ => rt) tok retries delay.

(** Answers every fetch after 2.9 seconds: the task is in progress. *)
Definition slow : Client := steady (answers 2900 200 "IN_PROGRESS") "tok" 3 (2 * Second).

(** Answers every fetch after a tenth of a second: the task is in progress. *)
Definition busy : Client := steady (answers 100 200 "IN_PROGRESS") "tok" 3 (2 * Second).

(** The task is in progress at the first two fetches and completed at
    the third. *)
Definition finishing : Client :=
  client [answers 100 200 "IN_PROGRESS"; answers 100 200 "IN_PROGRESS";
          answers 100 200 "COMPLETED"]
    (answers 100 200 "COMPLETED") "tok" 3 (2 * Second).

(** Answers every request with 404 and a body. *)
Definition missing : Client :=
  client [] (answers 1 404 "no such task") "tok" 3 (2 * Second).

(** Answers every request with 204 and no body. *)
Definition silent : Client := steady (answers 30 204 "") "old-token" 3 (2 * Second).

(** The task is completed at the first fetch. *)
Definition finished : Client := steady (answers 100 200 "COMPLETED") "tok" 3 (2 * Second).

(** One file, read as two bytes; no other path can be read. *)
Definition files : GoFiles :=
  {| os_ReadFile := fun name =>
       if String.eqb name "/tmp/payload.bin" then Val "MZ"
       else Fail ("open " +:+ name +:+ ": no such file or directory");
     base64_EncodeToString := fun data =>
       if String.eqb data "MZ" then "TVo=" else "";
     filepath_Base := fun name =>
       if String.eqb name "/tmp/payload.bin" then "payload.bin" else name |}.

Definition marshalUpload : Marshal UploadDto.t :=
  fun dto => Val (UploadDto.File dto).

Definition unmarshalAsync : Unmarshal AsyncCommandResponse.t :=
  fun data _ => (None, AsyncCommandResponse.mk "command" "SUBMITTED" "" "" data).
End Sample.

(** * Vocabulary of the properties *)

(** The values of an [int]. *)
Definition is_int (z : Z) : Prop := min_int <= z <= max_int.

Definition isAttempt (ev : Event) : bool :=
  match ev with
  | EvAttempt _ => true
  | _ => false
  end.

Definition isTick (ev : Event) : bool :=
  match ev with
  | EvTick _ => true
  | _ => false
  end.

(** The number of calls of [doRequestOnce] in a trace. *)
Definition attempts_made (tr : list Event) : nat := length (List.filter isAttempt tr).

(** The number of ticks received in a trace. *)
Definition ticks_received (tr : list Event) : nat := length (List.filter isTick tr).

(** The trace of the wait before an attempt. *)
Definition waited (c : Client) (attempt : Z) : list Event :=
  if attempt >? 0 then [EvDelay (retryDelay c)] else [].

(** The delay before an attempt. *)
Definition delay_before (c : Client) (attempt : Z) : Z :=
  if attempt >? 0 then retryDelay c else 0.

(** The trace of [n] retries from the attempt numbered [attempt] on: each
    is the delay [d] and then the attempt. *)
Fixpoint retries (d attempt : Z) (n : nat) : list Event :=
  match n with
  | O => []
  | S n => EvDelay d :: EvAttempt attempt :: retries d (attempt + 1) n
  end.

(** The attempt that is the client's request number [n] returns [err],
    in whatever world it is made. *)
Definition attempt_returns `{GoRuntime} {B R} `{Marshal B} `{Unmarshal R}
    (c : Client) (ctx : Context) (method path : string) (body : option B)
    (result : option R) (requireAuth : bool) (n : nat) (err : option GoError) : Prop :=
  forall w, length (sent w) = n ->
    fst (snd (doRequestOnce c ctx method path body result requireAuth w)) = err.

(** The two check points of the retry loop, reached with the context done
    (at [d], or at the entrance when it was done before).

    In the wait before [attempt]: the context is done before the delay is
    over; [w'] is the world at that instant. *)
Definition cancelled_in_wait (c : Client) (ctx : Context) (attempt : Z)
    (w w' : World) : Prop :=
  exists d, doneAt ctx = Some d /\ 0 < attempt
            /\ Z.max (now w) d < now w + retryDelay c
            /\ w' = advance_to (Z.max (now w) d) w.

(** After [attempt] has returned the error [err]: the context is done
    when the attempt returns; [w'] and [r] are the world and the result
    the attempt leaves. *)
Definition cancelled_after_failure `{GoRuntime} {B R} `{Marshal B} `{Unmarshal R}
    (c : Client) (ctx : Context) (method path : string) (body : option B)
    (requireAuth : bool) (attempt : Z) (result : option R) (w : World)
    (err : GoError) (w' : World) (r : option R) : Prop :=
  exists d w1, doneAt ctx = Some d
    /\ retryWait c ctx attempt w = inr w1
    /\ doRequestOnce c ctx method path body result requireAuth
         (log (EvAttempt attempt) w1) = (w', (Some err, r))
    /\ d <= now w'.

(** C3 as it is worded: at either check point, whatever the failure of
    the attempt, the loop returns the error of the context. *)
Definition cancellation_precedes_any_failure : Prop :=
  forall (RT : GoRuntime) (B R : Type) (MB : Marshal B) (UR : Unmarshal R)
         (c : Client) (ctx : Context) (method path : string) (body : option B)
         (requireAuth : bool) (fuel : nat) (attempt : Z)
         (lastErr : option GoError) (result : option R) (w w' : World)
         (r : option R),
    attempt <= maxRetries c ->
    (cancelled_in_wait c ctx attempt w w' /\ r = result)
    \/ (exists err, cancelled_after_failure c ctx method path body requireAuth
                      attempt result w err w' r) ->
    attempts c ctx method path body requireAuth (S fuel) attempt lastErr result w
    = Some (w', (Some (ErrCtx (doneWith ctx)), r)).

(** The fetch of the tick received at [t] in the world [w]: it starts
    when line 59 has read the clock. *)
Definition fetch_at `{GoRuntime} `{Unmarshal TaskDetailDto}
    (rfuel : nat) (c : Client) (ctx : Context) (taskID : string) (t : Z) (w : World)
  : option (World * returned TaskDetailDto) :=
  GetTask rfuel c ctx taskID (elapse (log (EvTick t) (advance_to t w))).

(** The instant at which the tick numbered [i], from 0, of a call of
    [WaitForTaskCompletion] made in the world [w] is due: the ticker is
    started when the clock has been read for the deadline. *)
Definition tick_due `{GoRuntime} (w : World) (i : Z) : Z :=
  read_after (now w) + 2 * Second * (i + 1).


(** The errors [doRequest] can return: a classified error, the error of
    the context, the error of line 93. *)
Inductive Surfaced (c : Client) : GoError -> Prop :=
| Surfaced_classified (a : APIError) : Surfaced c (ErrAPI a)
| Surfaced_cancelled (e : CtxError) : Surfaced c (ErrCtx e)
| Surfaced_exhausted (lastErr : option GoError) : Surfaced c (retryExhausted c lastErr).

(** The error at the end of the [errors.Unwrap] chain of an error. *)
Fixpoint root_cause (e : GoError) : GoError :=
  match e with
  | ErrWrap _ (Some cause) => root_cause cause
  | _ => e
  end.

(** The events one call of [doRequest] can add to the trace: none, or
    attempt 0 followed by [k] retries. *)
Definition request_trace (c : Client) (tr : list Event) : Prop :=
  tr = [] \/ exists k : nat, Z.of_nat k <= maxRetries c
                             /\ tr = EvAttempt 0 :: retries (retryDelay c) 1 k.

(** What [WaitForTaskCompletion] can return. *)
Inductive PollOutcome (c : Client) (ctx : Context)
  : option TaskDetailDto * option GoError -> Prop :=
| Polled_terminal (task : TaskDetailDto) :
    isTerminal (taskStatus task) = true -> PollOutcome c ctx (Some task, None)
| Polled_cancelled : PollOutcome c ctx (None, Some (ErrCtx (doneWith ctx)))
| Polled_timeout : PollOutcome c ctx (None, Some timeoutError)
| Polled_fetch_failed (cause : GoError) :
    Surfaced c cause ->
    PollOutcome c ctx (None, Some (Errorf_w "failed to get task: " (Some cause))).

(** * Properties *)

(** ** Arithmetic of [int] and of contexts *)

Lemma wrap64_id z : is_int z -> wrap64 z = z.
Proof.
  unfold is_int, wrap64, min_int, max_int. intros Hz.
  rewrite Z.mod_small; lia.
Qed.

Lemma gtb_le a b : a <= b -> (a >? b) = false.
Proof. intros Hle. rewrite Z.gtb_ltb. apply Z.ltb_ge. lia. Qed.

Lemma read_after_later `{GoRuntime} t : t <= read_after t.
Proof. unfold read_after. lia. Qed.

Lemma ctx_Err_done ctx d t :
  doneAt ctx = Some d -> d <= t -> ctx_Err ctx t = Some (ErrCtx (doneWith ctx)).
Proof.
  intros Hd Hle. unfold ctx_Err. rewrite Hd.
  destruct (d <=? t) eqn:E; [reflexivity | lia].
Qed.

Lemma ctx_Err_never ctx t : doneAt ctx = None -> ctx_Err ctx t = None.
Proof. intros Hd. unfold ctx_Err. now rewrite Hd. Qed.

Lemma ctx_Err_is_ctx ctx t e : ctx_Err ctx t = Some e -> e = ErrCtx (doneWith ctx).
Proof.
  unfold ctx_Err. destruct (doneAt ctx) as [d|]; [|discriminate].
  destruct (d <=? t); congruence.
Qed.

(** The [ctx.Done()] case is taken only when the context is done: the
    error returned there is not nil. *)
Lemma select_done_has_error `{GoRuntime} ctx entered ready t :
  select_done_or ctx entered ready = DoneFirst t ->
  ctx_Err ctx t = Some (ErrCtx (doneWith ctx)).
Proof.
  unfold select_done_or. destruct (doneAt ctx) as [d|] eqn:Hd; [|discriminate].
  assert (Hdone : ctx_Err ctx (Z.max entered d) = Some (ErrCtx (doneWith ctx)))
    by (apply (ctx_Err_done ctx d); [assumption | lia]).
  destruct (Z.max entered d <? Z.max entered ready); [intros [= <-]; assumption|].
  destruct (Z.max entered ready <? Z.max entered d); [discriminate|].
  destruct (select_first (Z.max entered ready)); [intros [= <-]; assumption | discriminate].
Qed.

Lemma select_done_or_later `{GoRuntime} ctx entered ready :
  match select_done_or ctx entered ready with
  | DoneFirst t | OtherFirst t => entered <= t
  end.
Proof.
  unfold select_done_or. destruct (doneAt ctx) as [d|]; [|lia].
  destruct (_ <? _); [lia|]. destruct (_ <? _); [lia|].
  destruct (select_first _); lia.
Qed.

(** ** The single attempt *)

Section TransportFacts.
Context `{GoRuntime} {B R : Type} `{Marshal B} `{Unmarshal R}.
Implicit Types (c : Client) (ctx : Context) (body : option B) (result : option R).
Implicit Types (w : World) (req : Request).

Lemma readReply_classified rp result e :
  fst (readReply rp result) = Some e -> exists a, e = ErrAPI a.
Proof.
  unfold readReply. destruct rp as [err | status [respBody | err]]; simpl.
  - intros [= <-]. eauto.
  - destruct (_ || _); simpl.
    + intros [= <-]. eauto.
    + destruct result as [r|]; simpl; [|discriminate].
      destruct (0 <? _)%nat; simpl; [|discriminate].
      destruct (json_Unmarshal respBody r) as [[err|] r']; simpl; [|discriminate].
      intros [= <-]. eauto.
  - intros [= <-]. eauto.
Qed.

(** Only a decode that fails leaves an error and another value: its
    error is not retryable and carries a status of [200,300). *)
Lemma readReply_failure_keeps_result rp result a :
  fst (readReply rp result) = Some (ErrAPI a) ->
  Retryable a = true \/ StatusCode a < 200 \/ 300 <= StatusCode a ->
  snd (readReply rp result) = result.
Proof.
  unfold readReply. destruct rp as [err | status [respBody | err]]; simpl; auto.
  destruct (_ || _) eqn:Hstatus; simpl; auto.
  destruct result as [r|]; simpl; auto.
  destruct (0 <? _)%nat; simpl; auto.
  destruct (json_Unmarshal respBody r) as [[err|] r']; simpl; [|discriminate].
  intros [= <-]. cbn [Retryable StatusCode].
  apply orb_false_iff in Hstatus. intros [Hr | Hs]; [discriminate | lia].
Qed.

Lemma doRequestOnce_trace c ctx method path body result requireAuth w :
  trace (fst (doRequestOnce c ctx method path body result requireAuth w)) = trace w.
Proof.
  unfold doRequestOnce. destruct (buildRequest _ _ _ _ _ _); reflexivity.
Qed.

Lemma doRequestOnce_classified c ctx method path body result requireAuth w e :
  fst (snd (doRequestOnce c ctx method path body result requireAuth w)) = Some e ->
  exists a, e = ErrAPI a.
Proof.
  unfold doRequestOnce. destruct (buildRequest _ _ _ _ _ _) as [a | req]; simpl.
  - intros [= <-]. eauto.
  - apply readReply_classified.
Qed.

Lemma doRequestOnce_failure_keeps_result c ctx method path body result requireAuth w a :
  fst (snd (doRequestOnce c ctx method path body result requireAuth w))
    = Some (ErrAPI a) ->
  Retryable a = true \/ StatusCode a < 200 \/ 300 <= StatusCode a ->
  snd (snd (doRequestOnce c ctx method path body result requireAuth w)) = result.
Proof.
  unfold doRequestOnce. destruct (buildRequest _ _ _ _ _ _) as [a0 | req]; simpl.
  - reflexivity.
  - apply readReply_failure_keeps_result.
Qed.

(** C1.  An attempt that gets a response whose status is outside
    [200,300), with its body read, returns an [*APIError] that carries
    the status; it is retryable exactly when the status is at least 500
    or is 429; its message is the body, or ["HTTP <code>: <reason>"]
    when the body is empty. *)
Theorem doRequestOnce_error_status
    c ctx method path body result requireAuth w req status respBody :
  buildRequest c ctx method path body requireAuth = inr req ->
  reply (httpClient c (length (sent w)) req) = Response status (Val respBody) ->
  status < 200 \/ 300 <= status ->
  exists e,
    fst (snd (doRequestOnce c ctx method path body result requireAuth w))
      = Some (ErrAPI e)
    /\ StatusCode e = status
    /\ (Retryable e = true <-> 500 <= status \/ status = 429)
    /\ (respBody <> "" -> Message e = respBody)
    /\ (respBody = "" ->
        Message e = "HTTP " +:+ itoa status +:+ ": " +:+ http_StatusText status).
Proof.
  intros Hreq Hreply Hstatus.
  unfold doRequestOnce. rewrite Hreq. cbn [fst snd]. rewrite Hreply.
  unfold readReply.
  replace ((status <? 200) || (status >=? 300)) with true
    by (symmetry; apply orb_true_iff; lia).
  cbn [fst snd]. eexists. split; [reflexivity|]. cbn [StatusCode Retryable Message].
  split; [reflexivity|]. split; [rewrite orb_true_iff; lia|].
  split; intros Hbody.
  - apply String.eqb_neq in Hbody. now rewrite Hbody.
  - subst respBody. reflexivity.
Qed.
End TransportFacts.

(** The statuses the specification lists: 500, 502, 503 and 429 are
    retryable; 400, 401, 403 and 404 are not. *)
Example listed_statuses :
  let retryable status :=
    match @readReply Sample.runtime TaskDetailDto Sample.unmarshalTask
            (Response status (Val "")) None with
    | (Some (ErrAPI e), _) => Some (Retryable e)
    | _ => None
    end in
  map retryable [500; 502; 503; 429] = [Some true; Some true; Some true; Some true]
  /\ map retryable [400; 401; 403; 404]
     = [Some false; Some false; Some false; Some false].
Proof. split; reflexivity. Qed.

Section Witnesses_transport.
#[local] Existing Instances Sample.runtime Sample.unmarshalTask.

Lemma doRequestOnce_error_status_witness :
  exists e,
    fst (snd (doRequestOnce
                (Sample.client [] (Sample.answers 40 429 "") "tok" 3 (2 * Second))
                Background "GET" "/api/v1/tasks" (@None NoBody)
                (Some zeroTaskDetailDto) true Sample.start))
      = Some (ErrAPI e)
    /\ StatusCode e = 429
    /\ (Retryable e = true <-> 500 <= 429 \/ 429 = 429)
    /\ ("" <> "" -> Message e = "")
    /\ ("" = "" -> Message e = "HTTP 429: Too Many Requests").
Proof.
  refine (doRequestOnce_error_status
            (Sample.client [] (Sample.answers 40 429 "") "tok" 3 (2 * Second))
            Background "GET" "/api/v1/tasks" (@None NoBody)
            (Some zeroTaskDetailDto) true Sample.start _ 429 "" eq_refl eq_refl _).
  lia.
Defined.
End Witnesses_transport.

(** ** Strings *)

Lemma append_assoc (s1 s2 s3 : string) : (s1 +:+ s2) +:+ s3 = s1 +:+ s2 +:+ s3.
Proof.
  induction s1 as [|ch s1 IH]; [reflexivity|].
  change (String ch ((s1 +:+ s2) +:+ s3) = String ch (s1 +:+ s2 +:+ s3)).
  now rewrite IH.
Qed.

(** ** Traces *)

Lemma attempts_made_app tr1 tr2 :
  attempts_made (tr1 ++ tr2) = (attempts_made tr1 + attempts_made tr2)%nat.
Proof. unfold attempts_made. now rewrite List.filter_app, List.length_app. Qed.

Lemma attempts_made_retries d attempt n : attempts_made (retries d attempt n) = n.
Proof.
  revert attempt. induction n as [|n IH]; intros attempt; [reflexivity|].
  change (S (attempts_made (retries d (attempt + 1) n)) = S n). now rewrite IH.
Qed.

Lemma ticks_received_app tr1 tr2 :
  ticks_received (tr1 ++ tr2) = (ticks_received tr1 + ticks_received tr2)%nat.
Proof. unfold ticks_received. now rewrite List.filter_app, List.length_app. Qed.

(** Counting the ticks of a trace that was extended with known events. *)
Ltac count_ticks :=
  unfold elapse in *; cbn [log advance_to trace] in *; unfold ticks_received in *;
  rewrite ?List.filter_app, ?List.length_app in *; cbn [List.filter isTick length] in *;
  lia.

(** ** The retry loop *)

Section RetryFacts.
Context `{GoRuntime} {B R : Type} `{Marshal B} `{Unmarshal R}.
Variables (c : Client) (ctx : Context) (method path : string).
Variables (body : option B) (requireAuth : bool).
Implicit Types (w : World) (result : option R) (lastErr : option GoError).

Local Abbreviation once := (doRequestOnce c ctx method path body).
Local Abbreviation loop := (attempts c ctx method path body requireAuth).
Local Abbreviation returns := (attempt_returns c ctx method path body).

Lemma buildRequest_error_final a :
  buildRequest c ctx method path body requireAuth = inl a -> Retryable a = false.
Proof.
  unfold buildRequest. destruct (marshalBody body); [|intros [= <-]; reflexivity].
  destruct (http_NewRequestWithContext _ _ _ _); [discriminate|].
  intros [= <-]. reflexivity.
Qed.

(** A retryable failure comes from the HTTP client: one request more was
    sent. *)
Lemma doRequestOnce_retryable_sent result w a :
  fst (snd (once result requireAuth w)) = Some (ErrAPI a) ->
  Retryable a = true ->
  length (sent (fst (once result requireAuth w))) = S (length (sent w)).
Proof.
  unfold doRequestOnce.
  destruct (buildRequest _ _ _ _ _ _) as [a0 | req] eqn:Hreq; simpl.
  - intros [= <-] Hr. apply buildRequest_error_final in Hreq. congruence.
  - intros _ _. rewrite List.length_app. simpl. lia.
Qed.

(** What the attempt made in [w] gives, when it is known by its number. *)
Lemma attempt_in_world result w n err :
  returns result requireAuth n err -> length (sent w) = n ->
  exists w1 r, once result requireAuth w = (w1, (err, r)) /\ trace w1 = trace w.
Proof.
  intros Hret Hn. specialize (Hret w Hn).
  pose proof (doRequestOnce_trace c ctx method path body result requireAuth w) as Htr.
  destruct (once result requireAuth w) as [w1 [e r]]. simpl in *. subst e. eauto.
Qed.

Lemma retryWait_first w : retryWait c ctx 0 w = inr w.
Proof. reflexivity. Qed.

Lemma retryWait_uncancelled attempt w :
  doneAt ctx = None -> 0 < attempt ->
  retryWait c ctx attempt w
  = inr (log (EvDelay (retryDelay c))
           (advance_to (Z.max (now w) (now w + retryDelay c)) w)).
Proof.
  intros Hctx Hpos. unfold retryWait, select_done_or. rewrite Hctx.
  destruct (attempt >? 0) eqn:E; [reflexivity | lia].
Qed.

Lemma retryWait_uncancelled_any attempt w :
  doneAt ctx = None -> 0 <= attempt ->
  exists w1, retryWait c ctx attempt w = inr w1
             /\ sent w1 = sent w /\ trace w1 = trace w ++ waited c attempt
             /\ now w + delay_before c attempt <= now w1.
Proof.
  intros Hctx Hpos. unfold waited, delay_before. destruct (attempt >? 0) eqn:E.
  - apply Z.gtb_lt in E. rewrite retryWait_uncancelled by assumption.
    eexists. split; [reflexivity|]. simpl. repeat split. lia.
  - unfold retryWait. rewrite E. exists w. rewrite List.app_nil_r.
    repeat split. lia.
Qed.

Lemma doRequestOnce_now result w : now w <= now (fst (once result requireAuth w)).
Proof.
  unfold doRequestOnce. destruct (buildRequest _ _ _ _ _ _); simpl; lia.
Qed.

(** The wait ends with the timer: the delay is in the trace, nothing was
    sent, the clock did not go back. *)
Lemma retryWait_elapsed attempt w w1 :
  retryWait c ctx attempt w = inr w1 ->
  trace w1 = trace w ++ waited c attempt /\ sent w1 = sent w /\ now w <= now w1.
Proof.
  unfold retryWait, waited. destruct (attempt >? 0).
  - pose proof (select_done_or_later ctx (now w) (now w + retryDelay c)) as Hlater.
    destruct (select_done_or ctx (now w) (now w + retryDelay c)); [discriminate|].
    intros [= <-]. simpl. auto.
  - intros [= <-]. rewrite List.app_nil_r. split; [reflexivity|]. split; [reflexivity|lia].
Qed.

(** The wait ends with the context: the world only got older, and the
    error of the context is not nil. *)
Lemma retryWait_cancelled attempt w w1 :
  retryWait c ctx attempt w = inl w1 ->
  trace w1 = trace w /\ sent w1 = sent w /\ now w <= now w1
  /\ ctx_Err ctx (now w1) = Some (ErrCtx (doneWith ctx)).
Proof.
  unfold retryWait. destruct (attempt >? 0); [|discriminate].
  pose proof (select_done_or_later ctx (now w) (now w + retryDelay c)) as Hlater.
  destruct (select_done_or ctx (now w) (now w + retryDelay c)) as [t|t] eqn:Hsel;
    [|discriminate].
  intros [= <-]. simpl. repeat split; try assumption.
  exact (select_done_has_error _ _ _ _ Hsel).
Qed.

(** One turn of the loop that ends in a retry: the attempt fails with a
    retryable error and the context is never done. *)
Lemma attempts_retry fuel attempt lastErr result w a :
  0 <= attempt -> attempt <= maxRetries c -> attempt < max_int ->
  doneAt ctx = None ->
  returns result requireAuth (length (sent w)) (Some (ErrAPI a)) ->
  Retryable a = true ->
  exists w2,
    loop (S fuel) attempt lastErr result w
    = loop fuel (attempt + 1) (Some (ErrAPI a)) result w2
    /\ trace w2 = trace w ++ waited c attempt ++ [EvAttempt attempt]
    /\ length (sent w2) = S (length (sent w))
    /\ now w + delay_before c attempt <= now w2.
Proof.
  intros Hatt Hle Hmax Hctx Hfails Hretry. cbn [attempts].
  replace (attempt <=? maxRetries c) with true by (symmetry; apply Z.leb_le; lia).
  destruct (retryWait_uncancelled_any attempt w Hctx Hatt)
    as (w1 & Hw & Hsent & Htr & Hnow1).
  rewrite Hw.
  destruct (attempt_in_world result (log (EvAttempt attempt) w1) _ _ Hfails)
    as (w2 & r & Hon & Htr2); [simpl; now rewrite Hsent|].
  pose proof (doRequestOnce_failure_keeps_result c ctx method path body result
                requireAuth (log (EvAttempt attempt) w1) a) as Hkeep.
  pose proof (doRequestOnce_retryable_sent result (log (EvAttempt attempt) w1) a)
    as Hlen.
  pose proof (doRequestOnce_now result (log (EvAttempt attempt) w1)) as Hnow2.
  rewrite Hon in *. simpl in Hkeep, Hlen, Hnow2.
  specialize (Hkeep eq_refl (or_introl Hretry)). specialize (Hlen eq_refl Hretry).
  subst r.
  cbn [isNonRetryableError]. rewrite Hretry. cbn [negb].
  rewrite ctx_Err_never by assumption.
  rewrite wrap64_id by (unfold is_int, min_int, max_int in *; lia).
  exists w2. split; [reflexivity|]. split; [|split; [|lia]].
  - rewrite Htr2. simpl. rewrite Htr, <- List.app_assoc. reflexivity.
  - rewrite Hlen, Hsent. reflexivity.
Qed.

(** The trace of a retry and of what follows it. *)
Lemma retry_trace (tr : list Event) attempt n :
  0 <= attempt ->
  (tr ++ waited c attempt ++ [EvAttempt attempt])
    ++ waited c (attempt + 1)
    ++ EvAttempt (attempt + 1) :: retries (retryDelay c) (attempt + 1 + 1) n
  = tr ++ waited c attempt
      ++ EvAttempt attempt :: retries (retryDelay c) (attempt + 1) (S n).
Proof.
  intros Hatt. unfold waited at 2.
  replace (attempt + 1 >? 0) with true by (symmetry; apply Z.gtb_lt; lia).
  rewrite <- !List.app_assoc. reflexivity.
Qed.

(** [n] retryable failures from [attempt] on and then a success, with a
    context that is never done. *)
Lemma attempts_then_success n :
  forall fuel attempt lastErr result w,
    (n < fuel)%nat -> 0 <= attempt -> attempt + Z.of_nat n <= maxRetries c ->
    is_int (maxRetries c) -> doneAt ctx = None ->
    (forall k, (k < n)%nat ->
       exists a, returns result requireAuth (length (sent w) + k)%nat (Some (ErrAPI a))
                 /\ Retryable a = true) ->
    returns result requireAuth (length (sent w) + n)%nat None ->
    exists w' r,
      loop fuel attempt lastErr result w = Some (w', (None, r))
      /\ trace w' = trace w ++ waited c attempt
                      ++ EvAttempt attempt :: retries (retryDelay c) (attempt + 1) n
      /\ now w + delay_before c attempt + Z.of_nat n * retryDelay c <= now w'.
Proof.
  induction n as [|n IH];
    intros fuel attempt lastErr result w Hfuel Hatt Hmax Hint Hctx Hfail Hok;
    (destruct fuel as [|fuel]; [lia|]).
  - cbn [attempts].
    replace (attempt <=? maxRetries c) with true by (symmetry; apply Z.leb_le; lia).
    destruct (retryWait_uncancelled_any attempt w Hctx Hatt)
      as (w1 & Hw & Hsent & Htr & Hnow1).
    rewrite Hw.
    destruct (attempt_in_world result (log (EvAttempt attempt) w1) _ None Hok)
      as (w2 & r & Hon & Htr2); [simpl; rewrite Hsent; lia|].
    pose proof (doRequestOnce_now result (log (EvAttempt attempt) w1)) as Hnow2.
    rewrite Hon in *. exists w2, r. split; [reflexivity|]. split.
    + rewrite Htr2. simpl. rewrite Htr, <- List.app_assoc. reflexivity.
    + simpl in *. lia.
  - destruct (Hfail 0%nat) as (a & Ha & Hr); [lia|]. rewrite Nat.add_0_r in Ha.
    destruct (attempts_retry fuel attempt lastErr result w a)
      as (w2 & Hstep & Htr2 & Hlen & Hnow2);
      try assumption; try (unfold is_int, max_int in *; lia).
    rewrite Hstep.
    destruct (IH fuel (attempt + 1) (Some (ErrAPI a)) result w2)
      as (w' & r & Hloop & Htr' & Hnow'); try lia; try assumption.
    + intros k Hk. destruct (Hfail (S k)) as (a' & Ha' & Hr'); [lia|].
      exists a'. split; [|assumption].
      replace (length (sent w2) + k)%nat with (length (sent w) + S k)%nat by lia.
      assumption.
    + replace (length (sent w2) + n)%nat with (length (sent w) + S n)%nat by lia.
      assumption.
    + exists w', r. split; [assumption|]. split.
      * rewrite Htr', Htr2. now apply retry_trace.
      * unfold delay_before at 1 in Hnow'.
        replace (attempt + 1 >? 0) with true in Hnow'
          by (symmetry; apply Z.gtb_lt; lia).
        lia.
Qed.

(** C2.  For [n] from 0 to [maxRetries]: when the first [n] attempts fail
    with retryable errors, attempt [n + 1] succeeds and the context is
    never done, [doRequest] returns the success; it has made exactly
    [n + 1] attempts, with the retry delay before each attempt after the
    first, and at least [n] delays of time have passed. *)
Theorem doRequest_succeeds_after_retries (n fuel : nat) result w :
  Z.of_nat n <= maxRetries c ->
  is_int (maxRetries c) ->
  doneAt ctx = None ->
  (n < fuel)%nat ->
  (forall k, (k < n)%nat ->
     exists a, returns result requireAuth (length (sent w) + k)%nat (Some (ErrAPI a))
               /\ Retryable a = true) ->
  returns result requireAuth (length (sent w) + n)%nat None ->
  exists w' r,
    doRequest c ctx method path body requireAuth fuel result w = Some (w', (None, r))
    /\ trace w' = trace w ++ EvAttempt 0 :: retries (retryDelay c) 1 n
    /\ attempts_made (trace w') = (attempts_made (trace w) + (n + 1))%nat
    /\ now w + Z.of_nat n * retryDelay c <= now w'.
Proof.
  intros Hn Hint Hctx Hfuel Hfail Hok.
  destruct (attempts_then_success n fuel 0 None result w)
    as (w' & r & Hloop & Htr & Hnow); try assumption; try lia.
  exists w', r. split; [exact Hloop|]. split; [exact Htr|]. split.
  - rewrite Htr, attempts_made_app. cbn [waited Z.gtb Z.compare app].
    change (attempts_made (EvAttempt 0 :: retries (retryDelay c) (0 + 1) n))
      with (S (attempts_made (retries (retryDelay c) (0 + 1) n))).
    rewrite attempts_made_retries. lia.
  - unfold delay_before in Hnow. simpl in Hnow. lia.
Qed.

(** Every attempt from [attempt] to [maxRetries] fails with a retryable
    error, with a context that is never done. *)
Lemma attempts_exhausted n :
  forall fuel attempt lastErr result w a_last,
    (S n < fuel)%nat -> 0 <= attempt -> attempt + Z.of_nat n = maxRetries c ->
    maxRetries c < max_int -> doneAt ctx = None ->
    (forall k, (k < n)%nat ->
       exists a, returns result requireAuth (length (sent w) + k)%nat (Some (ErrAPI a))
                 /\ Retryable a = true) ->
    returns result requireAuth (length (sent w) + n)%nat (Some (ErrAPI a_last)) ->
    Retryable a_last = true ->
    exists w',
      loop fuel attempt lastErr result w
      = Some (w', (Some (retryExhausted c (Some (ErrAPI a_last))), result))
      /\ trace w' = trace w ++ waited c attempt
                      ++ EvAttempt attempt :: retries (retryDelay c) (attempt + 1) n.
Proof.
  induction n as [|n IH];
    intros fuel attempt lastErr result w a_last Hfuel Hatt Hmax Hint Hctx Hfail
           Hlast Hlastr;
    (destruct fuel as [|fuel]; [lia|]).
  - rewrite Nat.add_0_r in Hlast.
    destruct (attempts_retry fuel attempt lastErr result w a_last)
      as (w2 & Hstep & Htr2 & _); try assumption; try lia.
    rewrite Hstep. destruct fuel as [|fuel]; [lia|]. cbn [attempts].
    replace (attempt + 1 <=? maxRetries c) with false
      by (symmetry; apply Z.leb_gt; lia).
    exists w2. split; [reflexivity | exact Htr2].
  - destruct (Hfail 0%nat) as (a & Ha & Hr); [lia|]. rewrite Nat.add_0_r in Ha.
    destruct (attempts_retry fuel attempt lastErr result w a)
      as (w2 & Hstep & Htr2 & Hlen & _); try assumption; try lia.
    rewrite Hstep.
    destruct (IH fuel (attempt + 1) (Some (ErrAPI a)) result w2 a_last)
      as (w' & Hloop & Htr'); try lia; try assumption.
    + intros k Hk. destruct (Hfail (S k)) as (a' & Ha' & Hr'); [lia|].
      exists a'. split; [|assumption].
      replace (length (sent w2) + k)%nat with (length (sent w) + S k)%nat by lia.
      assumption.
    + replace (length (sent w2) + n)%nat with (length (sent w) + S n)%nat by lia.
      assumption.
    + exists w'. split; [assumption|]. rewrite Htr', Htr2. now apply retry_trace.
Qed.

(** C6.  When the [maxRetries + 1] attempts all fail with retryable
    errors and the context is never done, [doRequest] returns the error
    of line 93: its text gives the count [maxRetries + 1], it unwraps to
    the error of the last attempt, and [maxRetries + 1] attempts were
    made.  The count [maxRetries + 1] is taken to be an [int]. *)
Theorem doRequest_exhausts_retries (fuel : nat) result w a_last :
  0 <= maxRetries c ->
  maxRetries c + 1 <= max_int ->
  doneAt ctx = None ->
  (Z.to_nat (maxRetries c) + 1 < fuel)%nat ->
  (forall k, (k < Z.to_nat (maxRetries c))%nat ->
     exists a, returns result requireAuth (length (sent w) + k)%nat (Some (ErrAPI a))
               /\ Retryable a = true) ->
  returns result requireAuth (length (sent w) + Z.to_nat (maxRetries c))%nat
    (Some (ErrAPI a_last)) ->
  Retryable a_last = true ->
  exists w' err,
    doRequest c ctx method path body requireAuth fuel result w
    = Some (w', (Some err, result))
    /\ Error_text err = "request failed after " +:+ itoa (maxRetries c + 1)
                          +:+ " attempts: " +:+ Message a_last
    /\ Unwrap err = Some (ErrAPI a_last)
    /\ attempts_made (trace w')
       = (attempts_made (trace w) + Z.to_nat (maxRetries c + 1))%nat.
Proof.
  intros Hpos Hmax Hctx Hfuel Hfail Hlast Hlastr.
  destruct (attempts_exhausted (Z.to_nat (maxRetries c)) fuel 0 None result w a_last)
    as (w' & Hloop & Htr); try assumption; try lia.
  exists w', (retryExhausted c (Some (ErrAPI a_last))).
  split; [exact Hloop|]. split; [|split; [reflexivity|]].
  - unfold retryExhausted, Errorf_w. cbn [Error_text].
    rewrite wrap64_id by (unfold is_int, min_int, max_int in *; lia).
    now rewrite !append_assoc.
  - rewrite Htr, attempts_made_app. cbn [waited Z.gtb Z.compare app].
    change (attempts_made (EvAttempt 0 :: retries (retryDelay c) (0 + 1)
                             (Z.to_nat (maxRetries c))))
      with (S (attempts_made (retries (retryDelay c) (0 + 1)
                                (Z.to_nat (maxRetries c))))).
    rewrite attempts_made_retries. lia.
Qed.

(** C7.  When the first attempt fails with an error that is not
    retryable, [doRequest] returns that very error, not wrapped, with the
    world and the result the attempt left; the attempt is the only event
    of the call: one attempt, no delay.  The result is the one the call
    was given unless the error is that of a decode, whose status is in
    [200,300). *)
Theorem doRequest_stops_on_non_retryable (fuel : nat) result w a :
  0 <= maxRetries c ->
  returns result requireAuth (length (sent w)) (Some (ErrAPI a)) ->
  Retryable a = false ->
  exists w' r,
    doRequest c ctx method path body requireAuth (S fuel) result w
    = Some (w', (Some (ErrAPI a), r))
    /\ once result requireAuth (log (EvAttempt 0) w) = (w', (Some (ErrAPI a), r))
    /\ (StatusCode a < 200 \/ 300 <= StatusCode a -> r = result)
    /\ trace w' = trace w ++ [EvAttempt 0]
    /\ attempts_made (trace w') = (attempts_made (trace w) + 1)%nat.
Proof.
  intros Hpos Hret Hfinal. unfold doRequest. cbn [attempts].
  replace (0 <=? maxRetries c) with true by (symmetry; apply Z.leb_le; lia).
  rewrite retryWait_first.
  destruct (attempt_in_world result (log (EvAttempt 0) w) _ _ Hret)
    as (w1 & r & Hon & Htr); [reflexivity|].
  pose proof (doRequestOnce_failure_keeps_result c ctx method path body result
                requireAuth (log (EvAttempt 0) w) a) as Hkeep.
  rewrite Hon in *. simpl in Hkeep. specialize (Hkeep eq_refl).
  cbn [isNonRetryableError]. rewrite Hfinal. cbn [negb].
  exists w1, r. split; [reflexivity|]. split; [reflexivity|].
  split; [intros Hstatus; apply Hkeep; now right|].
  rewrite Htr. split; [reflexivity|].
  simpl. rewrite attempts_made_app. reflexivity.
Qed.

(** C3, amended.  At a check point reached with the context done, the
    loop returns the error of the context at once: in the wait before an
    attempt, when the context is done before the delay is over, no
    attempt is made and the clock stops at that instant; after an attempt
    that returned a retryable failure, the error of the context replaces
    the attempt's.  A failure that is not retryable is returned as it is,
    with the world and the result the attempt left, whatever the attempt
    and whether the context is done or not. *)
Theorem cancellation_precedes_retry (fuel : nat) attempt lastErr result w w' r :
  attempt <= maxRetries c ->
  ((cancelled_in_wait c ctx attempt w w' /\ r = result)
   \/ (exists err, cancelled_after_failure c ctx method path body requireAuth
                     attempt result w err w' r
                   /\ isNonRetryableError err = false) ->
   loop (S fuel) attempt lastErr result w
   = Some (w', (Some (ErrCtx (doneWith ctx)), r)))
  /\ (forall w1 err,
        retryWait c ctx attempt w = inr w1 ->
        once result requireAuth (log (EvAttempt attempt) w1) = (w', (Some err, r)) ->
        isNonRetryableError err = true ->
        loop (S fuel) attempt lastErr result w = Some (w', (Some err, r))).
Proof.
  intros Hatt. cbn [attempts].
  replace (attempt <=? maxRetries c) with true by (symmetry; apply Z.leb_le; lia).
  split.
  - intros [[(d & Hd & Hpos & Hbefore & ->) ->]
           | (err & (d & w1 & Hd & Hwait & Honce & Hdone) & Hretry)].
    + unfold retryWait, select_done_or. rewrite Hd.
      replace (attempt >? 0) with true by (symmetry; apply Z.gtb_lt; lia).
      replace (Z.max (now w) d <? Z.max (now w) (now w + retryDelay c)) with true
        by (symmetry; apply Z.ltb_lt; lia).
      cbn [advance_to now]. rewrite (ctx_Err_done ctx d) by (assumption || lia).
      reflexivity.
    + rewrite Hwait, Honce, Hretry. rewrite (ctx_Err_done ctx d) by assumption.
      reflexivity.
  - intros w1 err Hwait Honce Hfinal. rewrite Hwait, Honce, Hfinal. reflexivity.
Qed.

Lemma attempts_surfaced fuel :
  forall attempt lastErr result w w' e r,
    loop fuel attempt lastErr result w = Some (w', (Some e, r)) -> Surfaced c e.
Proof.
  induction fuel as [|fuel IH]; intros attempt lastErr result w w' e r;
    cbn [attempts]; [discriminate|].
  destruct (attempt <=? maxRetries c); [|intros [= _ <- _]; constructor].
  destruct (retryWait c ctx attempt w) as [w1 | w1].
  - intros [= _ He _]. apply ctx_Err_is_ctx in He. subst e. constructor.
  - pose proof (doRequestOnce_classified c ctx method path body result requireAuth
                  (log (EvAttempt attempt) w1)) as Hcl.
    destruct (once result requireAuth (log (EvAttempt attempt) w1))
      as [w2 [[err|] r2]]; [|discriminate].
    destruct (Hcl err eq_refl) as [a ->].
    destruct (isNonRetryableError (ErrAPI a)).
    + intros [= _ <- _]. constructor.
    + destruct (ctx_Err ctx (now w2)) as [cerr|] eqn:Hc.
      * intros [= _ <- _]. apply ctx_Err_is_ctx in Hc. subst cerr. constructor.
      * apply IH.
Qed.

(** C9.  Every error of a single attempt is an [*APIError], with its
    status code, message and retryable flag; so every error [doRequest]
    returns is such an error, the error of the context, or the error of
    line 93. *)
Theorem errors_are_classified result w :
  (forall e, fst (snd (once result requireAuth w)) = Some e -> exists a, e = ErrAPI a)
  /\ (forall fuel w' e r,
       doRequest c ctx method path body requireAuth fuel result w
       = Some (w', (Some e, r)) ->
       Surfaced c e).
Proof.
  split.
  - apply doRequestOnce_classified.
  - intros fuel w' e r. apply attempts_surfaced.
Qed.

(** The clock never goes back during a call. *)
Lemma attempts_now fuel :
  forall attempt lastErr result w w' out,
    loop fuel attempt lastErr result w = Some (w', out) -> now w <= now w'.
Proof.
  induction fuel as [|fuel IH]; intros attempt lastErr result w w' out;
    cbn [attempts]; [discriminate|].
  destruct (attempt <=? maxRetries c); [|intros [= <- _]; lia].
  destruct (retryWait c ctx attempt w) as [w1 | w1] eqn:Hwait.
  - apply retryWait_cancelled in Hwait. intros [= <- _]. tauto.
  - apply retryWait_elapsed in Hwait. destruct Hwait as (_ & _ & Hnow1).
    pose proof (doRequestOnce_now result
                  (log (EvAttempt attempt) w1)) as Hnow2.
    destruct (once result requireAuth (log (EvAttempt attempt) w1))
      as [w2 [[err|] r2]]; simpl in Hnow2.
    + destruct (isNonRetryableError err); [intros [= <- _]; lia|].
      destruct (ctx_Err ctx (now w2)); [intros [= <- _]; lia|].
      intros Hrec. apply IH in Hrec. lia.
    + intros [= <- _]. lia.
Qed.
End RetryFacts.

(** C10.  After [SetRetryPolicy] with a negative [maxRetries], [doRequest]
    makes no attempt and waits for nothing: the world is as before, and
    the error returned is that of line 93, which unwraps to nil. *)
Theorem doRequest_negative_retries `{GoRuntime} {B R : Type} `{Marshal B} `{Unmarshal R}
    (c : Client) (m d : Z) (ctx : Context) (method path : string) (body : option B)
    (requireAuth : bool) (fuel : nat) (result : option R) (w : World) :
  is_int m ->
  m < 0 ->
  exists err,
    doRequest (SetRetryPolicy c m d) ctx method path body requireAuth (S fuel) result w
    = Some (w, (Some err, result))
    /\ err = ErrWrap ("request failed after " +:+ itoa (m + 1)
                        +:+ " attempts: %!w(<nil>)") None
    /\ Unwrap err = None.
Proof.
  intros Hint Hneg. unfold doRequest. cbn [attempts].
  change (maxRetries (SetRetryPolicy c m d)) with m.
  replace (0 <=? m) with false by (symmetry; apply Z.leb_gt; lia).
  eexists. split; [reflexivity|]. split; [|reflexivity].
  unfold retryExhausted, Errorf_w.
  change (maxRetries (SetRetryPolicy c m d)) with m.
  rewrite wrap64_id by (unfold is_int, min_int, max_int in *; lia).
  now rewrite !append_assoc.
Qed.

Section Witnesses_retry.
#[local] Existing Instances Sample.runtime Sample.marshalPayload Sample.unmarshalTask.

Lemma doRequest_succeeds_after_retries_witness :
  exists w' r,
    doRequest Sample.flaky Background "GET" "/api/v1/tasks" (Some (Sample.Text "{}"))
      true 3 (Some zeroTaskDetailDto) Sample.start = Some (w', (None, r))
    /\ trace w' = trace Sample.start ++ EvAttempt 0 :: retries (2 * Second) 1 2
    /\ attempts_made (trace w') = (attempts_made (trace Sample.start) + (2 + 1))%nat
    /\ now Sample.start + Z.of_nat 2 * (2 * Second) <= now w'.
Proof.
  apply (doRequest_succeeds_after_retries Sample.flaky Background "GET"
           "/api/v1/tasks" (Some (Sample.Text "{}")) true 2 3
           (Some zeroTaskDetailDto) Sample.start).
  - simpl. lia.
  - unfold is_int, min_int, max_int. simpl. lia.
  - reflexivity.
  - lia.
  - intros k Hk. destruct k as [|[|k]]; [| |lia].
    + eexists. split.
      * intros w Hw. unfold doRequestOnce. simpl. rewrite Hw. reflexivity.
      * reflexivity.
    + eexists. split.
      * intros w Hw. unfold doRequestOnce. simpl. rewrite Hw. reflexivity.
      * reflexivity.
  - intros w Hw. unfold doRequestOnce. simpl. rewrite Hw. reflexivity.
Defined.

Lemma doRequest_exhausts_retries_witness :
  exists w' err,
    doRequest Sample.down Background "GET" "/api/v1/tasks" (Some (Sample.Text "{}"))
      true 4 (Some zeroTaskDetailDto) Sample.start
    = Some (w', (Some err, Some zeroTaskDetailDto))
    /\ Error_text err
       = "request failed after 3 attempts: request failed: dial tcp: connection refused"
    /\ Unwrap err
       = Some (ErrAPI (mkAPIError 0 "request failed: dial tcp: connection refused" true))
    /\ attempts_made (trace w') = 3%nat.
Proof.
  apply (doRequest_exhausts_retries Sample.down Background "GET" "/api/v1/tasks"
           (Some (Sample.Text "{}")) true 4 (Some zeroTaskDetailDto) Sample.start
           (mkAPIError 0 "request failed: dial tcp: connection refused" true)).
  - simpl. lia.
  - unfold max_int. simpl. lia.
  - reflexivity.
  - simpl. lia.
  - intros k Hk. eexists. split.
    + intros w Hw. unfold doRequestOnce. simpl. destruct (length (sent w)); reflexivity.
    + reflexivity.
  - intros w Hw. unfold doRequestOnce. simpl. destruct (length (sent w)); reflexivity.
  - reflexivity.
Defined.

Lemma doRequest_stops_on_non_retryable_witness :
  exists w',
    doRequest Sample.missing Background "GET" "/api/v1/tasks/17"
      (Some (Sample.Text "{}")) true 1 (Some zeroTaskDetailDto) Sample.start
    = Some (w', (Some (ErrAPI (mkAPIError 404 "no such task" false)),
                 Some zeroTaskDetailDto))
    /\ trace w' = trace Sample.start ++ [EvAttempt 0]
    /\ attempts_made (trace w') = (attempts_made (trace Sample.start) + 1)%nat.
Proof.
  destruct (doRequest_stops_on_non_retryable Sample.missing Background "GET"
              "/api/v1/tasks/17" (Some (Sample.Text "{}")) true 0
              (Some zeroTaskDetailDto) Sample.start
              (mkAPIError 404 "no such task" false))
    as (w' & r & Hrun & _ & Hkept & Htrace & Hmade).
  - simpl. lia.
  - intros w Hw. unfold doRequestOnce. simpl. rewrite Hw. reflexivity.
  - reflexivity.
  - rewrite (Hkept ltac:(simpl; lia)) in Hrun.
    exists w'. split; [exact Hrun|]. split; [exact Htrace | exact Hmade].
Defined.

(** Both check points: a context done one second into the two-second
    wait before the second attempt, and a context that is done when a
    refused connection is reported.  Then a failure that is not
    retryable, under a context that is done: the task is missing (404). *)
Lemma cancellation_precedes_retry_witness :
  attempts Sample.down (mkContext (Some Second) DeadlineExceeded) "GET"
    "/api/v1/tasks" (Some (Sample.Text "{}")) true 1 1
    (Some (ErrAPI (mkAPIError 503 "busy" true))) (Some zeroTaskDetailDto) Sample.start
  = Some (advance_to Second Sample.start,
          (Some (ErrCtx DeadlineExceeded), Some zeroTaskDetailDto))
  /\ attempts Sample.down Sample.cancelled "GET" "/api/v1/tasks"
       (Some (Sample.Text "{}")) true 1 0 None (Some zeroTaskDetailDto) Sample.start
     = Some (fst (doRequestOnce Sample.down Sample.cancelled "GET" "/api/v1/tasks"
                    (Some (Sample.Text "{}")) (Some zeroTaskDetailDto) true
                    (log (EvAttempt 0) Sample.start)),
             (Some (ErrCtx Canceled), Some zeroTaskDetailDto))
  /\ attempts Sample.missing Sample.cancelled "GET" "/api/v1/tasks/17"
       (Some (Sample.Text "{}")) true 1 0 None (Some zeroTaskDetailDto) Sample.start
     = Some (fst (doRequestOnce Sample.missing Sample.cancelled "GET" "/api/v1/tasks/17"
                    (Some (Sample.Text "{}")) (Some zeroTaskDetailDto) true
                    (log (EvAttempt 0) Sample.start)),
             (Some (ErrAPI (mkAPIError 404 "no such task" false)),
              Some zeroTaskDetailDto)).
Proof.
  split; [|split].
  - apply (cancellation_precedes_retry Sample.down
             (mkContext (Some Second) DeadlineExceeded) "GET" "/api/v1/tasks"
             (Some (Sample.Text "{}")) true 0 1).
    + simpl. lia.
    + left. split; [|reflexivity]. exists Second.
      split; [reflexivity|]. split; [lia|]. split; reflexivity.
  - apply (cancellation_precedes_retry Sample.down Sample.cancelled "GET"
             "/api/v1/tasks" (Some (Sample.Text "{}")) true 0 0).
    + simpl. lia.
    + right. eexists. split.
      * exists 0, Sample.start. split; [reflexivity|]. split; [reflexivity|].
        split; [reflexivity|]. simpl. lia.
      * reflexivity.
  - apply (cancellation_precedes_retry Sample.missing Sample.cancelled "GET"
             "/api/v1/tasks/17" (Some (Sample.Text "{}")) true 0 0 None
             (Some zeroTaskDetailDto) Sample.start) with (w1 := Sample.start).
    + simpl. lia.
    + reflexivity.
    + reflexivity.
    + reflexivity.
Defined.

(** C3 as it is worded fails: with a context that is already done and a
    body that cannot be marshalled, the loop returns the attempt's own
    error, which is not retryable, and not the error of the context. *)
Lemma cancellation_precedes_any_failure_counterexample :
  ~ cancellation_precedes_any_failure.
Proof.
  intros Hclaim.
  specialize (Hclaim Sample.runtime Sample.Payload TaskDetailDto
                Sample.marshalPayload Sample.unmarshalTask
                Sample.flaky Sample.cancelled "POST" "/api/v1/beacons/1/execute"
                (Some Sample.Channel) true 0%nat 0 None (Some zeroTaskDetailDto)
                Sample.start (log (EvAttempt 0) Sample.start)
                (Some zeroTaskDetailDto)).
  assert (Hreturned :
            attempts Sample.flaky Sample.cancelled "POST" "/api/v1/beacons/1/execute"
              (Some Sample.Channel) true 1 0 None (Some zeroTaskDetailDto) Sample.start
            = Some (log (EvAttempt 0) Sample.start,
                    (Some (ErrAPI (mkAPIError 0
                       "failed to marshal request: json: unsupported type: chan int"
                       false)),
                     Some zeroTaskDetailDto))) by reflexivity.
  rewrite Hreturned in Hclaim.
  assert (Habsurd : Some (log (EvAttempt 0) Sample.start,
                      (Some (ErrAPI (mkAPIError 0
                         "failed to marshal request: json: unsupported type: chan int"
                         false)),
                       Some zeroTaskDetailDto))
                    = Some (log (EvAttempt 0) Sample.start,
                        (Some (ErrCtx (doneWith Sample.cancelled)),
                         Some zeroTaskDetailDto))).
  { apply Hclaim.
    - simpl. lia.
    - right. eexists. exists 0, Sample.start.
      split; [reflexivity|]. split; [reflexivity|]. split; [reflexivity|].
      simpl. lia. }
  discriminate Habsurd.
Qed.

Lemma errors_are_classified_witness :
  (forall e,
     fst (snd (doRequestOnce Sample.missing Background "GET" "/api/v1/tasks/17"
                 (Some (Sample.Text "{}")) (Some zeroTaskDetailDto) true Sample.start))
     = Some e ->
     exists a, e = ErrAPI a)
  /\ (forall fuel w' e r,
       doRequest Sample.missing Background "GET" "/api/v1/tasks/17"
         (Some (Sample.Text "{}")) true fuel (Some zeroTaskDetailDto) Sample.start
       = Some (w', (Some e, r)) ->
       Surfaced Sample.missing e).
Proof.
  exact (errors_are_classified Sample.missing Background "GET" "/api/v1/tasks/17"
           (Some (Sample.Text "{}")) true (Some zeroTaskDetailDto) Sample.start).
Defined.

Lemma doRequest_negative_retries_witness :
  exists err,
    doRequest (SetRetryPolicy Sample.flaky (-1) 0) Background "GET" "/api/v1/tasks"
      (Some (Sample.Text "{}")) true 1 (Some zeroTaskDetailDto) Sample.start
    = Some (Sample.start, (Some err, Some zeroTaskDetailDto))
    /\ err = ErrWrap "request failed after 0 attempts: %!w(<nil>)" None
    /\ Unwrap err = None.
Proof.
  apply (doRequest_negative_retries Sample.flaky (-1) 0 Background "GET"
           "/api/v1/tasks" (Some (Sample.Text "{}")) true 0
           (Some zeroTaskDetailDto) Sample.start).
  - unfold is_int, min_int, max_int. simpl. lia.
  - lia.
Defined.
End Witnesses_retry.

(** ** The bearer credential *)

Section AuthFacts.
Context `{GoRuntime} {B R : Type} `{Marshal B} `{Unmarshal R}.
Variables (c : Client) (ctx : Context) (method path : string).
Variables (body : option B) (requireAuth : bool).

Lemma setHeaders_authorization hasBody (req : Request) :
  Header req !! "Authorization" = None ->
  Header (setHeaders c hasBody requireAuth req) !! "Authorization"
  = if requireAuth && negb (String.eqb (token c) "")
    then Some ["Bearer " +:+ token c] else None.
Proof.
  intros Hfresh. unfold setHeaders.
  destruct (requireAuth && negb (String.eqb (token c) "")).
  - unfold Header_Set at 1. cbn [Header]. apply lookup_insert_eq.
  - destruct hasBody; [|assumption].
    unfold Header_Set. cbn [Header]. now rewrite lookup_insert_ne.
Qed.

Lemma buildRequest_authorization (req : Request) :
  buildRequest c ctx method path body requireAuth = inr req ->
  Header req !! "Authorization"
  = if requireAuth && negb (String.eqb (token c) "")
    then Some ["Bearer " +:+ token c] else None.
Proof.
  unfold buildRequest. destruct (marshalBody body) as [reqBody|]; [|discriminate].
  unfold http_NewRequestWithContext.
  destruct (http_NewRequest_error method (baseURL c +:+ path)); [discriminate|].
  intros [= <-]. now apply setHeaders_authorization.
Qed.

(** The request an attempt hands to the HTTP client is the one built. *)
Lemma doRequestOnce_sent (result : option R) (w : World) (req : Request) :
  sent (fst (doRequestOnce c ctx method path body result requireAuth w))
  = sent w ++ [req] ->
  buildRequest c ctx method path body requireAuth = inr req.
Proof.
  unfold doRequestOnce.
  destruct (buildRequest c ctx method path body requireAuth) as [a | req0]; simpl.
  - intros Hsent. apply (f_equal (@length Request)) in Hsent.
    rewrite List.length_app in Hsent. simpl in Hsent. lia.
  - intros Hsent. apply List.app_inv_head in Hsent. congruence.
Qed.

(** An attempt sends nothing or the request built. *)
Lemma doRequestOnce_sends (result : option R) (w : World) :
  exists reqs,
    sent (fst (doRequestOnce c ctx method path body result requireAuth w))
    = sent w ++ reqs
    /\ Forall (fun req => buildRequest c ctx method path body requireAuth = inr req) reqs.
Proof.
  unfold doRequestOnce.
  destruct (buildRequest c ctx method path body requireAuth) as [a | req0] eqn:Hb; simpl.
  - exists []. now rewrite List.app_nil_r.
  - exists [req0]. split; [reflexivity|]. constructor; [reflexivity | constructor].
Qed.

Lemma retryWait_sent attempt (w w1 : World) :
  retryWait c ctx attempt w = inl w1 \/ retryWait c ctx attempt w = inr w1 ->
  sent w1 = sent w.
Proof.
  unfold retryWait. destruct (attempt >? 0).
  - destruct (select_done_or ctx (now w) (now w + retryDelay c));
      intros [[= <-] | [= <-]]; reflexivity.
  - intros [[=] | [= <-]]. reflexivity.
Qed.

(** The requests of a whole [doRequest] are copies of the request built. *)
Lemma attempts_sends fuel :
  forall attempt lastErr (result : option R) (w w' : World) out,
    attempts c ctx method path body requireAuth fuel attempt lastErr result w
    = Some (w', out) ->
    exists reqs,
      sent w' = sent w ++ reqs
      /\ Forall (fun req => buildRequest c ctx method path body requireAuth = inr req)
           reqs.
Proof.
  induction fuel as [|fuel IH]; intros attempt lastErr result w w' out;
    cbn [attempts]; [discriminate|].
  assert (Hnone : forall w0 : World, sent w0 = sent w ->
            exists reqs, sent w0 = sent w ++ reqs
              /\ Forall (fun req => buildRequest c ctx method path body requireAuth
                                    = inr req) reqs).
  { intros w0 Hw0. exists []. rewrite List.app_nil_r. split; [assumption | constructor]. }
  destruct (attempt <=? maxRetries c); [|intros [= <- _]; now apply Hnone].
  destruct (retryWait c ctx attempt w) as [w1 | w1] eqn:Hwait.
  - intros [= <- _]. apply Hnone. apply (retryWait_sent attempt). now left.
  - assert (Hs1 : sent w1 = sent w) by (apply (retryWait_sent attempt); now right).
    destruct (doRequestOnce_sends result (log (EvAttempt attempt) w1))
      as (reqs1 & Hsent1 & Hall1).
    destruct (doRequestOnce c ctx method path body result requireAuth
                (log (EvAttempt attempt) w1)) as [w2 [[err|] r2]];
      simpl in Hsent1; rewrite Hs1 in Hsent1.
    + destruct (isNonRetryableError err); [intros [= <- _]; eauto|].
      destruct (ctx_Err ctx (now w2)); [intros [= <- _]; eauto|].
      intros Hrec. destruct (IH _ _ _ _ _ _ Hrec) as (reqs2 & Hsent2 & Hall2).
      exists (reqs1 ++ reqs2). split.
      * rewrite Hsent2, Hsent1. now rewrite List.app_assoc.
      * apply Forall_app. now split.
    + intros [= <- _]. eauto.
Qed.
End AuthFacts.

(** C8.  [Login] sends its requests without an [Authorization] header and
    leaves the access token it received in the client.  An attempt of a
    client whose token is set (not empty, as line 124 tests it) sends the
    header [Authorization: Bearer <token>] when [requireAuth] is true; an
    attempt with [requireAuth] false sends no [Authorization] header,
    whatever the token. *)
Theorem bearer_credential_attachment
    `{GoRuntime} `{Marshal LoginRequest} `{Unmarshal AuthDto} :
  (forall fuel c ctx username password durationMs w w1 c1 auth,
     Login fuel c ctx username password durationMs w = Some (w1, c1, Ok auth) ->
     token c1 = AccessToken auth
     /\ exists reqs, sent w1 = sent w ++ reqs
                     /\ Forall (fun req => Header req !! "Authorization" = None) reqs)
  /\ (forall (B R : Type) (MB : Marshal B) (UR : Unmarshal R)
            c ctx method path (body : option B) (result : option R) requireAuth w req,
       sent (fst (doRequestOnce c ctx method path body result requireAuth w))
       = sent w ++ [req] ->
       (requireAuth = true -> token c <> "" ->
        Header req !! "Authorization" = Some ["Bearer " +:+ token c])
       /\ (requireAuth = false -> Header req !! "Authorization" = None)).
Proof.
  split.
  - intros fuel c ctx username password durationMs w w1 c1 auth. unfold Login, doRequest.
    destruct (attempts c ctx "POST" "/api/auth/login"
                (Some (mkLoginRequest username password durationMs)) false fuel 0 None
                (Some zeroAuthDto) w) as [[w2 [[err|] r]]|] eqn:Hrun; try discriminate.
    intros [= <- <- <-]. split; [reflexivity|].
    destruct (attempts_sends _ _ _ _ _ _ _ _ _ _ _ _ _ Hrun) as (reqs & Hsent & Hall).
    exists reqs. split; [assumption|].
    eapply List.Forall_impl; [|exact Hall]. intros req Hreq. simpl in Hreq.
    now rewrite (buildRequest_authorization _ _ _ _ _ _ _ Hreq).
  - intros B R MB UR c ctx method path body result requireAuth w req Hsent.
    apply doRequestOnce_sent in Hsent. apply buildRequest_authorization in Hsent.
    rewrite Hsent. split.
    + intros -> Htok. apply String.eqb_neq in Htok. now rewrite Htok.
    + intros ->. reflexivity.
Qed.

Section Witnesses_auth.
#[local] Existing Instances Sample.runtime Sample.marshalLogin Sample.unmarshalAuth
  Sample.unmarshalTask.

(** A login that is answered with the token [s3cr3t], and then a fetch
    with the client it leaves. *)
Lemma bearer_credential_attachment_witness :
  Login 1 Sample.loginServer Background "operator" "hunter2" 0 Sample.start
  = Some (Sample.afterLogin, Sample.loggedIn, Ok (mkAuthDto "s3cr3t" "Bearer" 3600))
  /\ token Sample.loggedIn = "s3cr3t"
  /\ Forall (fun r => Header r !! "Authorization" = None) (sent Sample.afterLogin)
  /\ exists req,
       sent (fst (doRequestOnce Sample.loggedIn Background "GET" "/api/v1/beacons"
                    (@None NoBody) (Some zeroTaskDetailDto) true Sample.afterLogin))
       = sent Sample.afterLogin ++ [req]
       /\ Header req !! "Authorization" = Some ["Bearer s3cr3t"].
Proof.
  destruct bearer_credential_attachment as [Hlogin Hattempt].
  split; [reflexivity|].
  destruct (Hlogin 1%nat Sample.loginServer Background "operator" "hunter2" 0
              Sample.start Sample.afterLogin Sample.loggedIn
              (mkAuthDto "s3cr3t" "Bearer" 3600) eq_refl)
    as [Htok (reqs & Hsent & Hnone)].
  split; [exact Htok|]. split; [rewrite Hsent; exact Hnone|].
  eexists. split; [reflexivity|].
  refine (proj1 (Hattempt NoBody TaskDetailDto _ _ Sample.loggedIn Background "GET"
                   "/api/v1/beacons" None (Some zeroTaskDetailDto) true
                   Sample.afterLogin _ eq_refl) eq_refl _).
  discriminate.
Defined.
End Witnesses_auth.

(** ** The polling loop *)

Section PollFacts.
Context `{GoRuntime} `{Unmarshal TaskDetailDto}.
Variables (rfuel : nat) (c : Client) (ctx : Context) (taskID : string).
Implicit Types (w : World) (ticker : Ticker).

Local Abbreviation polling := (poll rfuel c ctx taskID).
Local Abbreviation fetch := (fetch_at rfuel c ctx taskID).

Lemma attempts_ticks {B R : Type} `{Marshal B} `{Unmarshal R}
    (method path : string) (body : option B) (requireAuth : bool) fuel :
  forall attempt lastErr (result : option R) w w' out,
    attempts c ctx method path body requireAuth fuel attempt lastErr result w
    = Some (w', out) ->
    ticks_received (trace w') = ticks_received (trace w).
Proof.
  induction fuel as [|fuel IH]; intros attempt lastErr result w w' out;
    cbn [attempts]; [discriminate|].
  destruct (attempt <=? maxRetries c); [|intros [= <- _]; reflexivity].
  assert (Hwait : forall w1, retryWait c ctx attempt w = inl w1
                             \/ retryWait c ctx attempt w = inr w1 ->
                             ticks_received (trace w1) = ticks_received (trace w)).
  { intros w1. unfold retryWait. destruct (attempt >? 0).
    - destruct (select_done_or ctx (now w) (now w + retryDelay c));
        intros [[= <-] | [= <-]]; try reflexivity.
      count_ticks.
    - intros [[=] | [= <-]]. reflexivity. }
  destruct (retryWait c ctx attempt w) as [w1 | w1].
  - intros [= <- _]. apply Hwait. now left.
  - specialize (Hwait w1 (or_intror eq_refl)).
    pose proof (doRequestOnce_trace c ctx method path body result requireAuth
                  (log (EvAttempt attempt) w1)) as Htr.
    destruct (doRequestOnce c ctx method path body result requireAuth
                (log (EvAttempt attempt) w1)) as [w2 [[err|] r2]]; simpl in Htr.
    + assert (Hw2 : ticks_received (trace w2) = ticks_received (trace w)).
      { rewrite Htr. count_ticks. }
      destruct (isNonRetryableError err); [intros [= <- _]; assumption|].
      destruct (ctx_Err ctx (now w2)); [intros [= <- _]; assumption|].
      intros Hrec. rewrite (IH _ _ _ _ _ _ Hrec). assumption.
    + intros [= <- _]. rewrite Htr. count_ticks.
Qed.

(** A fetch receives no tick. *)
Lemma fetch_ticks t w w1 out :
  fetch t w = Some (w1, out) ->
  ticks_received (trace w1) = S (ticks_received (trace w)).
Proof.
  unfold fetch_at, GetTask, doRequest.
  destruct (attempts c ctx "GET" ("/api/v1/tasks/" +:+ taskID) None true rfuel 0 None
              (Some zeroTaskDetailDto) (elapse (log (EvTick t) (advance_to t w))))
    as [[w2 [err r]]|] eqn:Hrun; [|discriminate].
  apply attempts_ticks in Hrun.
  assert (Hw2 : ticks_received (trace w2) = S (ticks_received (trace w))).
  { rewrite Hrun. count_ticks. }
  destruct err; intros [= <- _]; assumption.
Qed.

(** A fetch returns after the clock was read for its tick. *)
Lemma fetch_now t w w1 out :
  fetch t w = Some (w1, out) -> read_after t <= now w1.
Proof.
  unfold fetch_at, GetTask, doRequest.
  destruct (attempts c ctx "GET" ("/api/v1/tasks/" +:+ taskID) None true rfuel 0 None
              (Some zeroTaskDetailDto) (elapse (log (EvTick t) (advance_to t w))))
    as [[w2 [err r]]|] eqn:Hrun; [|discriminate].
  apply attempts_now in Hrun.
  change (now (elapse (log (EvTick t) (advance_to t w)))) with (read_after t) in Hrun.
  destruct err; intros [= <- _]; assumption.
Qed.

(** One turn of the loop when the context is never done and the tick is
    received when it is due: it is late when the clock, read after that,
    is past the deadline; otherwise the task is fetched, and the next
    tick is due a period later. *)
Lemma poll_on_time fuel deadline ticker w :
  doneAt ctx = None -> now w <= when ticker -> period ticker <> 0 ->
  polling (S fuel) deadline ticker w
  = if read_after (when ticker) >? deadline
    then Some (elapse (log (EvTick (when ticker)) (advance_to (when ticker) w)),
               (None, Some timeoutError))
    else match fetch (when ticker) w with
         | None => None
         | Some (w1, Err err) => Some (w1, (None, Some err))
         | Some (w1, Ok task) =>
             if isTerminal (taskStatus task) then Some (w1, (Some task, None))
             else polling fuel deadline
                    (mkTicker (when ticker + period ticker) (period ticker)) w1
         end.
Proof.
  intros Hctx Hnow Hperiod. cbn [poll]. unfold select_done_or. rewrite Hctx.
  replace (Z.max (now w) (when ticker)) with (when ticker) by lia.
  change (now (elapse (log (EvTick (when ticker)) (advance_to (when ticker) w))))
    with (read_after (when ticker)).
  unfold fetch_at.
  replace (Ticker_received ticker (when ticker))
    with (mkTicker (when ticker + period ticker) (period ticker)); [reflexivity|].
  unfold Ticker_received. rewrite Z.sub_diag, Z.div_0_l by assumption.
  f_equal. lia.
Qed.

(** C4.  At a tick that is not late (the clock, read when the tick was
    received, is not past the deadline), a fetched status of not-found or
    in-progress leaves the loop polling, from the world the fetch left
    and for the next tick; a fetched status of completed, failed or
    output-received ends it with the fetched task.  When the fetches give
    in-progress, in-progress and completed, each before the next tick is
    due, the third tick is not late and the context is never done, a
    wait of ten seconds returns the completed task from the fetch of the
    third tick, due six seconds after the ticker was started, and does
    not time out. *)
Theorem poll_until_terminal :
  (forall fuel deadline ticker w t w1 task,
     select_done_or ctx (now w) (when ticker) = OtherFirst t ->
     read_after t <= deadline ->
     fetch t w = Some (w1, Ok task) ->
     (taskStatus task = TaskStatusNotFound \/ taskStatus task = TaskStatusInProgress ->
      polling (S fuel) deadline ticker w
      = polling fuel deadline (Ticker_received ticker t) w1)
     /\ (taskStatus task = TaskStatusCompleted \/ taskStatus task = TaskStatusFailed
         \/ taskStatus task = TaskStatusOutputReceived ->
         polling (S fuel) deadline ticker w = Some (w1, (Some task, None))))
  /\ (forall fuel w0 w1 w2 w3 task1 task2 task3,
       doneAt ctx = None ->
       fetch (tick_due w0 0) (elapse w0) = Some (w1, Ok task1) ->
       taskStatus task1 = TaskStatusInProgress ->
       now w1 <= tick_due w0 1 ->
       fetch (tick_due w0 1) w1 = Some (w2, Ok task2) ->
       taskStatus task2 = TaskStatusInProgress ->
       now w2 <= tick_due w0 2 ->
       read_after (tick_due w0 2) <= now w0 + 10 * Second ->
       fetch (tick_due w0 2) w2 = Some (w3, Ok task3) ->
       taskStatus task3 = TaskStatusCompleted ->
       WaitForTaskCompletion rfuel c ctx taskID (3 + fuel) (10 * Second) w0
       = Some (w3, (Some task3, None))
       /\ ticks_received (trace w3) = (ticks_received (trace w0) + 3)%nat).
Proof.
  split.
  - intros fuel deadline ticker w t w1 task Hsel Hdue Hfetch.
    cbn [poll]. rewrite Hsel.
    change (now (elapse (log (EvTick t) (advance_to t w)))) with (read_after t).
    replace (read_after t >? deadline) with false by (symmetry; apply gtb_le; lia).
    unfold fetch_at in Hfetch. rewrite Hfetch.
    split; intros Hstatus.
    + destruct Hstatus as [-> | ->]; reflexivity.
    + destruct Hstatus as [-> | [-> | ->]]; reflexivity.
  - intros fuel w0 w1 w2 w3 task1 task2 task3 Hctx Hf1 Hs1 Hn1 Hf2 Hs2 Hn2 Hdue Hf3 Hs3.
    assert (Hsec : 0 < Second) by reflexivity.
    pose proof (read_after_later (now w0)) as Hstart.
    pose proof (read_after_later (tick_due w0 2)) as Hread3.
    pose proof (fetch_now _ _ _ _ Hf1) as Hr1.
    pose proof (fetch_now _ _ _ _ Hf2) as Hr2.
    assert (Ht0 : read_after (now w0) + 2 * Second = tick_due w0 0)
      by (unfold tick_due; lia).
    assert (Ht1 : tick_due w0 0 + 2 * Second = tick_due w0 1)
      by (unfold tick_due; lia).
    assert (Ht2 : tick_due w0 1 + 2 * Second = tick_due w0 2)
      by (unfold tick_due; lia).
    unfold WaitForTaskCompletion, NewTicker. cbn [Nat.add].
    change (now (elapse w0)) with (read_after (now w0)). rewrite Ht0.
    rewrite poll_on_time
      by (assumption || (cbn [when period];
                         change (now (elapse w0)) with (read_after (now w0)); lia)).
    cbn [when period].
    replace (read_after (tick_due w0 0) >? now w0 + 10 * Second) with false
      by (symmetry; apply gtb_le; lia).
    rewrite Hf1, Hs1.
    change (isTerminal TaskStatusInProgress) with false. cbv iota.
    rewrite poll_on_time by (assumption || (cbn [when period]; lia)).
    cbn [when period]. rewrite Ht1.
    replace (read_after (tick_due w0 1) >? now w0 + 10 * Second) with false
      by (symmetry; apply gtb_le; lia).
    rewrite Hf2, Hs2.
    change (isTerminal TaskStatusInProgress) with false. cbv iota.
    rewrite poll_on_time by (assumption || (cbn [when period]; lia)).
    cbn [when period]. rewrite Ht2.
    replace (read_after (tick_due w0 2) >? now w0 + 10 * Second) with false
      by (symmetry; apply gtb_le; lia).
    rewrite Hf3, Hs3.
    change (isTerminal TaskStatusCompleted) with true. cbv iota.
    split; [reflexivity|].
    apply fetch_ticks in Hf1, Hf2, Hf3.
    change (trace (elapse w0)) with (trace w0) in Hf1. lia.
Qed.


End PollFacts.

Section Witnesses_poll.
#[local] Existing Instances Sample.runtime Sample.unmarshalTask.

(** The ticker starts a microsecond after the call: the ticks are due
    at 2, 4 and 6 seconds and a microsecond, and the completed task is
    returned a tenth of a second after the clock was read for the
    third. *)
Lemma poll_until_terminal_witness :
  exists w3 task3,
    WaitForTaskCompletion 1 Sample.finishing Background "17" 3 (10 * Second)
      Sample.start = Some (w3, (Some task3, None))
    /\ taskStatus task3 = TaskStatusCompleted
    /\ now w3 - now Sample.start = 6 * Second + 100000000 + 2000
    /\ ticks_received (trace w3) = 3%nat.
Proof.
  destruct (poll_until_terminal 1 Sample.finishing Background "17") as [_ Hscenario].
  edestruct (Hscenario 0%nat Sample.start) as [Hreturned Hticks].
  - reflexivity.
  - reflexivity.
  - reflexivity.
  - apply Z.leb_le. reflexivity.
  - reflexivity.
  - reflexivity.
  - apply Z.leb_le. reflexivity.
  - apply Z.leb_le. reflexivity.
  - reflexivity.
  - reflexivity.
  - eexists _, _. split; [exact Hreturned|]. split; [reflexivity|].
    split; [reflexivity | exact Hticks].
Defined.



(** With a negative timeout the first tick is already late: the call
    returns after one tick, more than a tick after the timeout. *)
Example negative_timeout_returns_at_first_tick :
  exists w',
    WaitForTaskCompletion 1 Sample.busy Background "17" 1 (- Second) Sample.start
    = Some (w', (None, Some timeoutError))
    /\ now w' - now Sample.start = 2 * Second + 2000.
Proof. eexists. split; reflexivity. Qed.
End Witnesses_poll.

(** ** The retry loop returns *)

(** Unless [maxRetries] is the largest [int], the loop ends within
    [maxRetries + 1] turns, whatever the attempts and the context do. *)
Lemma attempts_return `{GoRuntime} {B R : Type} `{Marshal B} `{Unmarshal R}
    (c : Client) (ctx : Context) (method path : string) (body : option B)
    (requireAuth : bool) (fuel : nat) :
  forall attempt lastErr (result : option R) w,
    maxRetries c < max_int -> 0 <= attempt ->
    (Z.to_nat (maxRetries c + 1 - attempt) < fuel)%nat ->
    exists w' out,
      attempts c ctx method path body requireAuth fuel attempt lastErr result w
      = Some (w', out).
Proof.
  induction fuel as [|fuel IH]; intros attempt lastErr result w Hmax Hatt Hfuel; [lia|].
  cbn [attempts]. destruct (attempt <=? maxRetries c) eqn:Hle; [|eauto].
  apply Z.leb_le in Hle.
  destruct (retryWait c ctx attempt w) as [w1 | w1]; [eauto|].
  destruct (doRequestOnce c ctx method path body result requireAuth
              (log (EvAttempt attempt) w1)) as [w2 [[err|] r2]]; [|eauto].
  destruct (isNonRetryableError err); [eauto|].
  destruct (ctx_Err ctx (now w2)); [eauto|].
  rewrite wrap64_id by (unfold is_int, min_int, max_int in *; lia).
  apply IH; lia.
Qed.

(** X17.  Unless [maxRetries] is the largest [int], [doRequest] returns:
    its loop is over after at most [maxRetries + 1] turns, whatever the
    attempts give and whatever the context does. *)
Lemma doRequest_returns `{GoRuntime} {B R : Type} `{Marshal B} `{Unmarshal R}
    (c : Client) (ctx : Context) (method path : string) (body : option B)
    (requireAuth : bool) (fuel : nat) (result : option R) (w : World) :
  maxRetries c < max_int ->
  (Z.to_nat (maxRetries c + 1) < fuel)%nat ->
  exists w' out,
    doRequest c ctx method path body requireAuth fuel result w = Some (w', out).
Proof.
  intros Hmax Hfuel. apply attempts_return; [assumption | lia |].
  now rewrite Z.sub_0_r.
Qed.

(** * Further properties of the retry loop *)

Section RetryInvariants.
Context `{GoRuntime} {B R : Type} `{Marshal B} `{Unmarshal R}.
Variables (c : Client) (ctx : Context) (method path : string).
Variables (body : option B) (requireAuth : bool).
Implicit Types (w : World) (result : option R) (lastErr : option GoError).

Local Abbreviation once := (doRequestOnce c ctx method path body).
Local Abbreviation loop := (attempts c ctx method path body requireAuth).

Lemma attempts_trace_shape fuel :
  forall attempt lastErr result w w' out,
    0 <= attempt -> maxRetries c < max_int ->
    loop fuel attempt lastErr result w = Some (w', out) ->
    trace w' = trace w
    \/ exists k : nat,
         attempt + Z.of_nat k <= maxRetries c
         /\ trace w' = trace w ++ waited c attempt
                         ++ EvAttempt attempt :: retries (retryDelay c) (attempt + 1) k.
Proof.
  induction fuel as [|fuel IH]; intros attempt lastErr result w w' out Hatt Hmax;
    cbn [attempts]; [discriminate|].
  destruct (attempt <=? maxRetries c) eqn:Hle; [|intros [= <- _]; now left].
  apply Z.leb_le in Hle.
  destruct (retryWait c ctx attempt w) as [w1 | w1] eqn:Hwait.
  - intros [= <- _]. left. now apply retryWait_cancelled in Hwait.
  - apply retryWait_elapsed in Hwait. destruct Hwait as (Htr1 & _ & _).
    pose proof (doRequestOnce_trace c ctx method path body result requireAuth
                  (log (EvAttempt attempt) w1)) as Htr2.
    assert (Hone : forall w2 : World, trace w2 = trace (log (EvAttempt attempt) w1) ->
              exists k : nat,
                attempt + Z.of_nat k <= maxRetries c
                /\ trace w2 = trace w ++ waited c attempt
                     ++ EvAttempt attempt :: retries (retryDelay c) (attempt + 1) k).
    { intros w2 Hw2. exists 0%nat. split; [lia|].
      rewrite Hw2. simpl. rewrite Htr1, <- List.app_assoc. reflexivity. }
    destruct (once result requireAuth (log (EvAttempt attempt) w1))
      as [w2 [[err|] r2]]; simpl in Htr2.
    + destruct (isNonRetryableError err); [intros [= <- _]; right; auto|].
      destruct (ctx_Err ctx (now w2)); [intros [= <- _]; right; auto|].
      rewrite wrap64_id by (unfold is_int, min_int, max_int in *; lia).
      intros Hrec. apply IH in Hrec; [|lia|assumption].
      right. destruct Hrec as [Hsame | (k & Hk & Htr')].
      * apply Hone. rewrite Hsame. exact Htr2.
      * exists (S k). split; [lia|].
        rewrite Htr', Htr2, Htr1.
        rewrite <- (retry_trace c (trace w) attempt k Hatt).
        rewrite <- !List.app_assoc. reflexivity.
    + intros [= <- _]. right. auto.
Qed.

(** X1.  Whatever the attempts and the context do, a call that returns
    has added to the trace nothing, or attempt 0 followed by at most
    [maxRetries] retries, each a delay and then the next attempt: never
    more than [maxRetries + 1] attempts, and never two attempts without
    the delay between them. *)
Theorem doRequest_trace_shape fuel result w w' out :
  maxRetries c < max_int ->
  doRequest c ctx method path body requireAuth fuel result w = Some (w', out) ->
  exists tr,
    trace w' = trace w ++ tr
    /\ request_trace c tr
    /\ Z.of_nat (attempts_made tr) <= Z.max 0 (maxRetries c + 1).
Proof.
  intros Hmax Hrun. apply attempts_trace_shape in Hrun; [|lia|assumption].
  destruct Hrun as [Hsame | (k & Hk & Htr)].
  - exists []. rewrite List.app_nil_r. split; [assumption|]. split; [now left|].
    change (attempts_made []) with 0%nat. lia.
  - exists (EvAttempt 0 :: retries (retryDelay c) 1 k).
    split; [exact Htr|]. split; [right; exists k; split; [lia | reflexivity]|].
    change (attempts_made (EvAttempt 0 :: retries (retryDelay c) 1 k))
      with (S (attempts_made (retries (retryDelay c) 1 k))).
    rewrite attempts_made_retries. lia.
Qed.

Lemma attempts_success_origin fuel :
  forall attempt lastErr result w w' r,
    loop fuel attempt lastErr result w = Some (w', (None, r)) ->
    exists w0, once result requireAuth w0 = (w', (None, r)).
Proof.
  induction fuel as [|fuel IH]; intros attempt lastErr result w w' r;
    cbn [attempts]; [discriminate|].
  destruct (attempt <=? maxRetries c); [|discriminate].
  destruct (retryWait c ctx attempt w) as [w1 | w1] eqn:Hwait.
  - apply retryWait_cancelled in Hwait. destruct Hwait as (_ & _ & _ & Herr).
    rewrite Herr. discriminate.
  - pose proof (doRequestOnce_failure_keeps_result c ctx method path body result
                  requireAuth (log (EvAttempt attempt) w1)) as Hkeep.
    pose proof (doRequestOnce_classified c ctx method path body result requireAuth
                  (log (EvAttempt attempt) w1)) as Hcl.
    destruct (once result requireAuth (log (EvAttempt attempt) w1))
      as [w2 [[err|] r2]] eqn:Hon.
    + destruct (Hcl err eq_refl) as [a ->]. simpl in Hkeep.
      specialize (Hkeep a eq_refl). cbn [isNonRetryableError].
      destruct (Retryable a); cbn [negb]; [|discriminate].
      rewrite (Hkeep (or_introl eq_refl)).
      destruct (ctx_Err ctx (now w2)); [discriminate|]. apply IH.
    + intros [= <- <-]. eauto.
Qed.

(** X2.  [doRequest] returns a nil error only as the outcome of an
    attempt: the world and the result it returns are those an attempt
    that succeeded left.  Neither the end of the retries nor a context
    that is done is ever reported as a success. *)
Theorem doRequest_success_from_attempt fuel result w w' r :
  doRequest c ctx method path body requireAuth fuel result w = Some (w', (None, r)) ->
  exists w0, doRequestOnce c ctx method path body result requireAuth w0
             = (w', (None, r)).
Proof. apply attempts_success_origin. Qed.

(** X3.  A call made with a context that is already done still makes
    its first attempt, and only that one: it returns the world and the
    result that attempt left, with the attempt's nil error when it
    succeeded, the attempt's own error when that is not retryable, and
    the error of the context otherwise; it never waits and never
    retries. *)
Theorem doRequest_under_done_context fuel result w d :
  0 <= maxRetries c ->
  doneAt ctx = Some d ->
  d <= now w ->
  exists w' err r,
    once result requireAuth (log (EvAttempt 0) w) = (w', (err, r))
    /\ doRequest c ctx method path body requireAuth (S fuel) result w
       = Some (w', (match err with
                    | None => None
                    | Some e => if isNonRetryableError e then Some e
                                else Some (ErrCtx (doneWith ctx))
                    end, r))
    /\ trace w' = trace w ++ [EvAttempt 0].
Proof.
  intros Hpos Hd Hdone. unfold doRequest. cbn [attempts].
  replace (0 <=? maxRetries c) with true by (symmetry; apply Z.leb_le; lia).
  rewrite retryWait_first.
  pose proof (doRequestOnce_trace c ctx method path body result requireAuth
                (log (EvAttempt 0) w)) as Htr.
  pose proof (doRequestOnce_now c ctx method path body requireAuth result
                (log (EvAttempt 0) w)) as Hnow.
  destruct (once result requireAuth (log (EvAttempt 0) w)) as [w2 [err r2]];
    simpl in Htr, Hnow.
  exists w2, err, r2. split; [reflexivity|]. split; [|assumption].
  destruct err as [e|]; [|reflexivity].
  destruct (isNonRetryableError e); [reflexivity|].
  rewrite (ctx_Err_done ctx d) by (assumption || lia). reflexivity.
Qed.

(** The request that is built carries the method, the URL and the body
    it was given, and a content type exactly when there is a body. *)
Lemma buildRequest_shape (req : Request) :
  buildRequest c ctx method path body requireAuth = inr req ->
  Method req = method
  /\ URL req = baseURL c +:+ path
  /\ Header req !! "Content-Type"
     = match body with Some _ => Some ["application/json"] | None => None end
  /\ Body req = match body with
                | None => None
                | Some b => match json_Marshal b with
                            | Val jsonData => Some jsonData
                            | Fail _ => None
                            end
                end.
Proof.
  unfold buildRequest, marshalBody, http_NewRequestWithContext.
  destruct body as [b|].
  - destruct (json_Marshal b) as [jsonData|]; [|discriminate].
    destruct (http_NewRequest_error method (baseURL c +:+ path)); [discriminate|].
    intros [= <-]. unfold setHeaders.
    replace (bool_decide (is_Some (Some b))) with true
      by (symmetry; apply bool_decide_eq_true; eauto).
    destruct (requireAuth && negb (String.eqb (token c) "")); cbn.
    + rewrite lookup_insert_ne by discriminate. rewrite lookup_insert_eq. auto.
    + rewrite lookup_insert_eq. auto.
  - destruct (http_NewRequest_error method (baseURL c +:+ path)); [discriminate|].
    intros [= <-]. unfold setHeaders.
    replace (bool_decide (is_Some (@None B))) with false
      by (symmetry; apply bool_decide_eq_false; intros [x Hx]; discriminate).
    destruct (requireAuth && negb (String.eqb (token c) "")); cbn.
    + rewrite lookup_insert_ne by discriminate. auto.
    + auto.
Qed.

(** X4.  All the requests of one call, retries included, are the same
    request: the method and the URL [baseURL + path] of the call, its
    marshalled body, a JSON content type exactly when there is a body,
    and the bearer header exactly when [requireAuth] is set and the token
    is not empty. *)
Theorem doRequest_resends_one_request fuel result w w' out :
  doRequest c ctx method path body requireAuth fuel result w = Some (w', out) ->
  exists reqs,
    sent w' = sent w ++ reqs
    /\ (forall r1 r2, In r1 reqs -> In r2 reqs -> r1 = r2)
    /\ (forall r, In r reqs ->
          Method r = method
          /\ URL r = baseURL c +:+ path
          /\ Header r !! "Content-Type"
             = match body with Some _ => Some ["application/json"] | None => None end
          /\ Header r !! "Authorization"
             = (if requireAuth && negb (String.eqb (token c) "")
                then Some ["Bearer " +:+ token c] else None)).
Proof.
  intros Hrun.
  destruct (attempts_sends c ctx method path body requireAuth _ _ _ _ _ _ _ Hrun)
    as (reqs & Hsent & Hall).
  rewrite List.Forall_forall in Hall.
  exists reqs. split; [assumption|]. split.
  - intros r1 r2 Hr1 Hr2. apply Hall in Hr1, Hr2. congruence.
  - intros r Hr. apply Hall in Hr.
    destruct (buildRequest_shape r Hr) as (Hm & Hu & Hct & _).
    repeat split; try assumption.
    exact (buildRequest_authorization c ctx method path body requireAuth r Hr).
Qed.

Lemma root_cause_exhausted (a : APIError) :
  root_cause (retryExhausted c (Some (ErrAPI a))) = ErrAPI a.
Proof. reflexivity. Qed.

Lemma attempts_root_cause fuel :
  forall attempt lastErr result w w' e r,
    (exists a, lastErr = Some (ErrAPI a)) \/ attempt <= maxRetries c ->
    loop fuel attempt lastErr result w = Some (w', (Some e, r)) ->
    (exists a, root_cause e = ErrAPI a) \/ root_cause e = ErrCtx (doneWith ctx).
Proof.
  induction fuel as [|fuel IH]; intros attempt lastErr result w w' e r Hlast;
    cbn [attempts]; [discriminate|].
  destruct (attempt <=? maxRetries c) eqn:Hle.
  - destruct (retryWait c ctx attempt w) as [w1 | w1] eqn:Hwait.
    + intros [= _ He _]. apply ctx_Err_is_ctx in He. subst e. now right.
    + pose proof (doRequestOnce_classified c ctx method path body result requireAuth
                    (log (EvAttempt attempt) w1)) as Hcl.
      destruct (once result requireAuth (log (EvAttempt attempt) w1))
        as [w2 [[err|] r2]]; [|discriminate].
      destruct (Hcl err eq_refl) as [a ->].
      destruct (isNonRetryableError (ErrAPI a)); [intros [= _ <- _]; left; eauto|].
      destruct (ctx_Err ctx (now w2)) as [cerr|] eqn:Hc.
      * intros [= _ <- _]. apply ctx_Err_is_ctx in Hc. subst cerr. now right.
      * apply IH. left. eauto.
  - apply Z.leb_gt in Hle. destruct Hlast as [[a ->] | Hle']; [|lia].
    intros [= _ <- _]. left. exists a. apply root_cause_exhausted.
Qed.

(** X5.  When [maxRetries] is not negative, every error [doRequest]
    returns leads, along [errors.Unwrap], to the [*APIError] of an
    attempt or to the error of the context: the error of line 93 then
    always wraps the last attempt's error, never nil. *)
Theorem doRequest_error_root_cause fuel result w w' e r :
  0 <= maxRetries c ->
  doRequest c ctx method path body requireAuth fuel result w = Some (w', (Some e, r)) ->
  (exists a, root_cause e = ErrAPI a) \/ root_cause e = ErrCtx (doneWith ctx).
Proof.
  intros Hpos. apply attempts_root_cause. now right.
Qed.

End RetryInvariants.

(** * Further properties of the single attempt *)

Section TransportInvariants.
Context `{GoRuntime} {B R : Type} `{Marshal B} `{Unmarshal R}.
Variables (c : Client) (ctx : Context) (method path : string).
Variables (body : option B) (result : option R) (requireAuth : bool).

Local Abbreviation attempt_in := (doRequestOnce c ctx method path body result requireAuth).

(** X6.  The error of an attempt is retryable only if the attempt handed
    a request to the HTTP client; an attempt that fails before (the body
    cannot be marshalled, the request cannot be made) leaves the world as
    it was, and its error has status 0 and is not retryable. *)
Theorem doRequestOnce_failure_origin (w : World) (a : APIError) :
  fst (snd (attempt_in w)) = Some (ErrAPI a) ->
  (Retryable a = true -> exists req, sent (fst (attempt_in w)) = sent w ++ [req])
  /\ (sent (fst (attempt_in w)) = sent w ->
      fst (attempt_in w) = w /\ StatusCode a = 0 /\ Retryable a = false).
Proof.
  unfold doRequestOnce.
  destruct (buildRequest c ctx method path body requireAuth) as [a0 | req] eqn:Hreq;
    cbn [fst snd].
  - intros [= <-]. pose proof (buildRequest_error_final _ _ _ _ _ _ _ Hreq) as Hfinal.
    split; [congruence|]. intros _. split; [reflexivity|]. split; [|assumption].
    revert Hreq. unfold buildRequest. destruct (marshalBody body); [|intros [= <-]; reflexivity].
    destruct (http_NewRequestWithContext _ _ _ _); [discriminate|].
    intros [= <-]. reflexivity.
  - intros _. split; [eauto|]. intros Hsent. cbn [sent] in Hsent.
    apply (f_equal (@length Request)) in Hsent. rewrite List.length_app in Hsent.
    simpl in Hsent. lia.
Qed.

(** X7.  An attempt returns nil only for a response that was read in
    full and whose status is in [200,300). *)
Theorem doRequestOnce_success_is_2xx (w : World) :
  fst (snd (attempt_in w)) = None ->
  exists req status respBody,
    buildRequest c ctx method path body requireAuth = inr req
    /\ reply (httpClient c (length (sent w)) req) = Response status (Val respBody)
    /\ 200 <= status < 300.
Proof.
  unfold doRequestOnce.
  destruct (buildRequest c ctx method path body requireAuth) as [a0 | req];
    cbn [fst snd]; [discriminate|].
  unfold readReply.
  destruct (reply (httpClient c (length (sent w)) req))
    as [err | status [respBody | err]] eqn:Hreply; cbn [fst]; try discriminate.
  destruct ((status <? 200) || (status >=? 300)) eqn:Hrange; [discriminate|].
  intros _. exists req, status, respBody. split; [reflexivity|]. split; [exact Hreply|].
  apply orb_false_iff in Hrange. lia.
Qed.
End TransportInvariants.

(** * Properties of the endpoint functions *)

Lemma root_cause_wrap (failed : string) (cause : GoError) :
  root_cause (Errorf_w failed (Some cause)) = root_cause cause.
Proof. reflexivity. Qed.

Section EndpointFacts.
Context `{GoRuntime} {B R : Type} `{Marshal B} `{Unmarshal R}.
Variables (c : Client) (ctx : Context) (method path : string).
Variables (body : option B) (zero : R) (failed : string).

(** The first attempt succeeds: the call is over. *)
Lemma doRequest_first_success requireAuth fuel (result : option R) (w w1 : World) r :
  0 <= maxRetries c ->
  doRequestOnce c ctx method path body result requireAuth (log (EvAttempt 0) w)
  = (w1, (None, r)) ->
  doRequest c ctx method path body requireAuth (S fuel) result w = Some (w1, (None, r)).
Proof.
  intros Hpos Hon. unfold doRequest. cbn [attempts].
  replace (0 <=? maxRetries c) with true by (symmetry; apply Z.leb_le; lia).
  rewrite retryWait_first, Hon. reflexivity.
Qed.

(** A response in [200,300) with an empty body: the attempt succeeds
    and does not touch the result. *)
Lemma doRequestOnce_empty_2xx requireAuth (result : option R) (w : World) req status :
  buildRequest c ctx method path body requireAuth = inr req ->
  reply (httpClient c (length (sent w)) req) = Response status (Val "") ->
  200 <= status < 300 ->
  snd (doRequestOnce c ctx method path body result requireAuth w) = (None, result).
Proof.
  intros Hreq Hreply Hstatus. unfold doRequestOnce. rewrite Hreq. cbn [snd].
  rewrite Hreply. unfold readReply.
  replace ((status <? 200) || (status >=? 300)) with false
    by (symmetry; apply orb_false_iff; lia).
  destruct result; reflexivity.
Qed.

(** X8.  An endpoint function that fails returns the error of
    [doRequest] wrapped under its own text: [errors.Unwrap] gives that
    error back, which is an [*APIError], the error of the context or the
    error of line 93; and when [maxRetries] is not negative the chain
    ends in an [*APIError] or in the error of the context. *)
Theorem endpoint_error_chain fuel (w w' : World) (e : GoError) :
  endpoint fuel c ctx method path body zero failed w = Some (w', Err e) ->
  exists cause,
    Unwrap e = Some cause
    /\ Error_text e = failed +:+ Error_text cause
    /\ Surfaced c cause
    /\ (0 <= maxRetries c ->
        (exists a, root_cause e = ErrAPI a) \/ root_cause e = ErrCtx (doneWith ctx)).
Proof.
  unfold endpoint.
  destruct (doRequest c ctx method path body true fuel (Some zero) w)
    as [[w1 [[err|] r]]|] eqn:Hrun; try discriminate.
  intros [= <- <-]. exists err. split; [reflexivity|]. split; [reflexivity|]. split.
  - exact (attempts_surfaced c ctx method path body true _ _ _ _ _ _ _ _ Hrun).
  - intros Hpos. rewrite root_cause_wrap.
    exact (attempts_root_cause c ctx method path body true _ _ _ _ _ _ _ _
             (or_intror Hpos) Hrun).
Qed.

(** X9.  An endpoint function whose first response is in [200,300) with
    an empty body succeeds with the zero value of its result: nothing is
    decoded. *)
Theorem endpoint_empty_body fuel (w : World) req status :
  0 <= maxRetries c ->
  buildRequest c ctx method path body true = inr req ->
  reply (httpClient c (length (sent w)) req) = Response status (Val "") ->
  200 <= status < 300 ->
  exists w', endpoint (S fuel) c ctx method path body zero failed w = Some (w', Ok zero).
Proof.
  intros Hpos Hreq Hreply Hstatus. unfold endpoint.
  pose proof (doRequestOnce_empty_2xx true (Some zero) (log (EvAttempt 0) w) req status
                Hreq Hreply Hstatus) as Hon.
  destruct (doRequestOnce c ctx method path body (Some zero) true (log (EvAttempt 0) w))
    as [w1 out] eqn:Hattempt.
  simpl in Hon. subst out.
  rewrite (doRequest_first_success true fuel (Some zero) w w1 (Some zero) Hpos Hattempt).
  exists w1. reflexivity.
Qed.
End EndpointFacts.

(** [GetTask] is an endpoint function like the others. *)
Lemma GetTask_endpoint `{GoRuntime} `{Unmarshal TaskDetailDto}
    (fuel : nat) (c : Client) (ctx : Context) (taskID : string) (w : World) :
  GetTask fuel c ctx taskID w
  = endpoint fuel c ctx "GET" ("/api/v1/tasks/" +:+ taskID) (@None NoBody)
      zeroTaskDetailDto "failed to get task: " w.
Proof. reflexivity. Qed.

(** ** Login *)

Section LoginFacts.
Context `{GoRuntime} `{Marshal LoginRequest} `{Unmarshal AuthDto}.
Variables (c : Client) (ctx : Context) (username password : string) (durationMs : Z).

(** X10.  A login that fails leaves the client as it was, token
    included, and returns the error of [doRequest] wrapped under
    ["login failed: "]. *)
Theorem Login_failure_keeps_client fuel (w w1 : World) (c1 : Client) (e : GoError) :
  Login fuel c ctx username password durationMs w = Some (w1, c1, Err e) ->
  c1 = c
  /\ exists cause,
       Unwrap e = Some cause
       /\ Error_text e = "login failed: " +:+ Error_text cause
       /\ Surfaced c cause.
Proof.
  unfold Login.
  destruct (doRequest c ctx "POST" "/api/auth/login"
              (Some (mkLoginRequest username password durationMs)) false fuel
              (Some zeroAuthDto) w) as [[w2 [[err|] r]]|] eqn:Hrun; try discriminate.
  intros [= <- <- <-]. split; [reflexivity|].
  exists err. split; [reflexivity|]. split; [reflexivity|].
  exact (attempts_surfaced c ctx "POST" "/api/auth/login" _ false _ _ _ _ _ _ _ _ Hrun).
Qed.

(** X11.  A login whose first response is in [200,300) with an empty
    body succeeds with the zero [AuthDto] and sets the token to the empty
    string, whatever it was: the client it leaves sends no
    [Authorization] header, also with [requireAuth] set. *)
Theorem Login_empty_body_clears_token fuel (w : World) req status :
  0 <= maxRetries c ->
  buildRequest c ctx "POST" "/api/auth/login"
    (Some (mkLoginRequest username password durationMs)) false = inr req ->
  reply (httpClient c (length (sent w)) req) = Response status (Val "") ->
  200 <= status < 300 ->
  exists w',
    Login (S fuel) c ctx username password durationMs w
    = Some (w', setToken c "", Ok zeroAuthDto)
    /\ forall (B R : Type) (MB : Marshal B) (UR : Unmarshal R) ctx' method path
              (body : option B) (result : option R) w0 req',
         sent (fst (doRequestOnce (setToken c "") ctx' method path body result true w0))
         = sent w0 ++ [req'] ->
         Header req' !! "Authorization" = None.
Proof.
  intros Hpos Hreq Hreply Hstatus. unfold Login.
  pose proof (doRequestOnce_empty_2xx c ctx "POST" "/api/auth/login"
                (Some (mkLoginRequest username password durationMs)) false
                (Some zeroAuthDto) (log (EvAttempt 0) w) req status Hreq Hreply Hstatus)
    as Hon.
  destruct (doRequestOnce c ctx "POST" "/api/auth/login"
              (Some (mkLoginRequest username password durationMs)) (Some zeroAuthDto)
              false (log (EvAttempt 0) w)) as [w1 out] eqn:Hattempt.
  simpl in Hon. subst out.
  rewrite (doRequest_first_success c ctx "POST" "/api/auth/login" _ false fuel
             (Some zeroAuthDto) w w1 (Some zeroAuthDto) Hpos Hattempt).
  exists w1. split; [reflexivity|].
  intros B R MB UR ctx' method path body result w0 req' Hsent.
  apply doRequestOnce_sent in Hsent. apply buildRequest_authorization in Hsent.
  exact Hsent.
Qed.
End LoginFacts.

(** ** Upload *)

Section UploadFacts.
Context `{GoRuntime} `{GoFiles} `{Marshal UploadDto.t} `{Unmarshal AsyncCommandResponse.t}.
Variables (c : Client) (ctx : Context) (bid localPath : string).

(** X12.  [Upload] reads the file before anything else.  When the file
    cannot be read it returns that error wrapped under
    ["failed to read file: "] and the world is untouched: nothing is
    sent.  When it can, every request it sends is a POST to the upload
    path of the beacon whose body is the marshalled [UploadDto] in which
    [Files] has the one entry base name -> base64 content, and [File] is
    ["@files/"] followed by that base name. *)
Theorem Upload_reads_then_sends fuel (w w' : World) out :
  Upload fuel c ctx bid localPath w = Some (w', out) ->
  (forall err, os_ReadFile localPath = Fail err ->
     w' = w
     /\ exists e, out = Err e /\ Unwrap e = Some (ErrNew err)
                  /\ Error_text e = "failed to read file: " +:+ err)
  /\ (forall data, os_ReadFile localPath = Val data ->
        exists reqs dto,
          sent w' = sent w ++ reqs
          /\ UploadDto.File dto = "@files/" +:+ filepath_Base localPath
          /\ UploadDto.Files dto
             = {[filepath_Base localPath := base64_EncodeToString data]}
          /\ forall r, In r reqs ->
               Method r = "POST"
               /\ URL r = baseURL c +:+ "/api/v1/beacons/" +:+ bid +:+ "/execute/upload"
               /\ exists jsonData, json_Marshal dto = Val jsonData
                                   /\ Body r = Some jsonData).
Proof.
  unfold Upload, readAndEncodeFile. intros Hrun. split.
  - intros err Hread. rewrite Hread in Hrun. injection Hrun as <- <-.
    split; [reflexivity|]. eexists. split; [reflexivity|]. split; reflexivity.
  - intros data Hread. rewrite Hread in Hrun. unfold endpoint in Hrun.
    destruct (doRequest c ctx "POST" ("/api/v1/beacons/" +:+ bid +:+ "/execute/upload")
                (Some (uploadRequest localPath (base64_EncodeToString data))) true fuel
                (Some AsyncCommandResponse.zero) w) as [[w1 o]|] eqn:Hdo;
      [|discriminate].
    assert (Hw : w1 = w') by (destruct o as [[err|] r]; congruence). subst w1.
    destruct (attempts_sends c ctx _ _ _ true _ _ _ _ _ _ _ Hdo) as (reqs & Hsent & Hall).
    rewrite List.Forall_forall in Hall.
    exists reqs, (uploadRequest localPath (base64_EncodeToString data)).
    split; [assumption|]. split; [reflexivity|]. split; [reflexivity|].
    intros r Hr. apply Hall in Hr.
    destruct (buildRequest_shape c ctx _ _ _ true r Hr) as (Hm & Hu & _ & Hb).
    split; [assumption|]. split; [assumption|].
    revert Hr Hb. unfold buildRequest, marshalBody.
    destruct (json_Marshal (uploadRequest localPath (base64_EncodeToString data)))
      as [jsonData|]; [|discriminate].
    intros _ Hb. eauto.
Qed.
End UploadFacts.

(** * Further properties of the polling loop *)

Lemma select_tick_instant `{GoRuntime} ctx entered ready t :
  select_done_or ctx entered ready = OtherFirst t -> t = Z.max entered ready.
Proof.
  unfold select_done_or. destruct (doneAt ctx) as [d|]; [|congruence].
  destruct (_ <? _); [discriminate|]. destruct (_ <? _); [congruence|].
  destruct (select_first _); [discriminate | congruence].
Qed.

Section PollInvariants.
Context `{GoRuntime} `{Unmarshal TaskDetailDto}.
Variables (rfuel : nat) (c : Client) (ctx : Context) (taskID : string).
Implicit Types (w : World) (ticker : Ticker).

Local Abbreviation polling := (poll rfuel c ctx taskID).
Local Abbreviation fetch := (fetch_at rfuel c ctx taskID).

Lemma GetTask_error w w1 e :
  GetTask rfuel c ctx taskID w = Some (w1, Err e) ->
  exists cause, e = Errorf_w "failed to get task: " (Some cause) /\ Surfaced c cause.
Proof.
  rewrite GetTask_endpoint. unfold endpoint.
  destruct (doRequest c ctx "GET" ("/api/v1/tasks/" +:+ taskID) (@None NoBody) true rfuel
              (Some zeroTaskDetailDto) w) as [[w2 [[err|] r]]|] eqn:Hrun;
    try discriminate.
  intros [= <- <-]. exists err. split; [reflexivity|].
  exact (attempts_surfaced c ctx _ _ _ true _ _ _ _ _ _ _ _ Hrun).
Qed.

Lemma poll_outcome fuel :
  forall deadline ticker w w' out,
    polling fuel deadline ticker w = Some (w', out) -> PollOutcome c ctx out.
Proof.
  induction fuel as [|fuel IH]; intros deadline ticker w w' out; cbn [poll];
    [discriminate|].
  destruct (select_done_or ctx (now w) (when ticker)) as [t|t] eqn:Hsel.
  - intros [= _ <-]. cbn [advance_to now].
    rewrite (select_done_has_error _ _ _ _ Hsel). constructor.
  - destruct (_ >? deadline); [intros [= _ <-]; constructor|].
    destruct (GetTask rfuel c ctx taskID (elapse (log (EvTick t) (advance_to t w))))
      as [[w1 [task|e]]|] eqn:Hget; [| |discriminate].
    + destruct (isTerminal (taskStatus task)) eqn:Hterm.
      * intros [= _ <-]. now constructor.
      * apply IH.
    + intros [= _ <-]. apply GetTask_error in Hget. destruct Hget as (cause & -> & Hs).
      now constructor.
Qed.

(** X13.  Whatever [WaitForTaskCompletion] returns is one of: a task
    whose status is terminal, with a nil error; the error of the
    context; the timeout error; the error of a fetch, as [GetTask]
    wrapped it.  It never returns a task that is still in progress, nor
    a nil task with a nil error. *)
Theorem WaitForTaskCompletion_outcomes fuel timeout w w' out :
  WaitForTaskCompletion rfuel c ctx taskID fuel timeout w = Some (w', out) ->
  PollOutcome c ctx out.
Proof. apply poll_outcome. Qed.

Lemma poll_not_before_tick fuel :
  forall deadline ticker w w' out,
    polling fuel deadline ticker w = Some (w', out) ->
    out = (None, Some (ErrCtx (doneWith ctx)))
    \/ Z.max (now w) (when ticker) <= now w'.
Proof.
  induction fuel as [|fuel IH]; intros deadline ticker w w' out; cbn [poll];
    [discriminate|].
  destruct (select_done_or ctx (now w) (when ticker)) as [t|t] eqn:Hsel.
  - intros [= _ <-]. left. cbn [advance_to now].
    now rewrite (select_done_has_error _ _ _ _ Hsel).
  - apply select_tick_instant in Hsel.
    change (now (elapse (log (EvTick t) (advance_to t w)))) with (read_after t).
    pose proof (read_after_later t) as Hread.
    destruct (read_after t >? deadline).
    { intros [= <- _]. right.
      change (now (elapse (log (EvTick t) (advance_to t w)))) with (read_after t). lia. }
    destruct (GetTask rfuel c ctx taskID (elapse (log (EvTick t) (advance_to t w))))
      as [[w1 o]|] eqn:Hget; [|discriminate].
    apply (fetch_now rfuel c ctx taskID t w) in Hget.
    destruct o as [task|e].
    + destruct (isTerminal (taskStatus task)); [intros [= <- _]; right; lia|].
      intros Hrec. apply IH in Hrec. destruct Hrec as [-> | Hrec]; [now left|].
      right. lia.
    + intros [= <- _]. right. lia.
Qed.

(** X14.  Unless it returns the error of the context,
    [WaitForTaskCompletion] does not return before the first tick, two
    seconds after the call: also when the task is already completed and
    when the timeout is zero. *)
Theorem WaitForTaskCompletion_takes_a_tick fuel timeout w w' out :
  WaitForTaskCompletion rfuel c ctx taskID fuel timeout w = Some (w', out) ->
  out = (None, Some (ErrCtx (doneWith ctx))) \/ now w + 2 * Second <= now w'.
Proof.
  unfold WaitForTaskCompletion. intros Hrun. apply poll_not_before_tick in Hrun.
  cbn [NewTicker when] in Hrun.
  change (now (elapse w)) with (read_after (now w)) in Hrun.
  pose proof (read_after_later (now w)) as Hstart.
  destruct Hrun as [-> | Hrun]; [now left|].
  right. lia.
Qed.

Lemma poll_tick_bound fuel :
  forall deadline ticker w w' out,
    period ticker = 2 * Second ->
    polling fuel deadline ticker w = Some (w', out) ->
    let most := Z.max 0 ((deadline - when ticker) / (2 * Second) + 1) in
    Z.of_nat (ticks_received (trace w')) <= Z.of_nat (ticks_received (trace w)) + most + 1
    /\ (snd out <> Some timeoutError ->
        Z.of_nat (ticks_received (trace w')) <= Z.of_nat (ticks_received (trace w)) + most).
Proof.
  induction fuel as [|fuel IH]; intros deadline ticker w w' out Hperiod; cbn [poll];
    [discriminate|].
  destruct (select_done_or ctx (now w) (when ticker)) as [t|t] eqn:Hsel.
  - intros [= <- <-]. cbn [advance_to trace]. split; [|intros _]; lia.
  - apply select_tick_instant in Hsel.
    change (now (elapse (log (EvTick t) (advance_to t w)))) with (read_after t).
    pose proof (read_after_later t) as Hread.
    destruct (read_after t >? deadline) eqn:Hlate.
    + intros [= <- <-]. cbn zeta. split; [count_ticks|].
      intros Hne. now contradiction Hne.
    + rewrite Z.gtb_ltb in Hlate. apply Z.ltb_ge in Hlate.
      destruct (GetTask rfuel c ctx taskID (elapse (log (EvTick t) (advance_to t w))))
        as [[w1 o]|] eqn:Hget; [|discriminate].
      pose proof (fetch_ticks rfuel c ctx taskID t w w1 o Hget) as Hticks.
      destruct o as [task|e].
      * destruct (isTerminal (taskStatus task)).
        { intros [= <- <-]. cbn zeta. change (2 * Second) with 2000000000.
          rewrite Hticks. clear IH. split; [|intros _]; Z.div_mod_to_equations; lia. }
        intros Hrec. apply IH in Hrec; [|exact Hperiod].
        cbn zeta in *. cbn [Ticker_received when period] in Hrec.
        rewrite Hperiod in Hrec. change (2 * Second) with 2000000000 in *.
        destruct Hrec as [Hall Hfetched]. rewrite Hticks in *. clear IH.
        split; [|intros Hne; specialize (Hfetched Hne)]; Z.div_mod_to_equations; lia.
      * intros [= <- <-]. cbn zeta. change (2 * Second) with 2000000000.
        rewrite Hticks. clear IH. split; [|intros _]; Z.div_mod_to_equations; lia.
Qed.

(** X15.  However long the fetches take and whatever they return, a call
    receives at most [timeout / 2s + 1] ticks (one when the timeout is
    negative), and at most [timeout / 2s] unless it ends with the timeout
    error: since every tick but a late one starts exactly one fetch, the
    task is fetched at most [timeout / 2s] times. *)
Theorem WaitForTaskCompletion_tick_bound fuel timeout w w' out :
  WaitForTaskCompletion rfuel c ctx taskID fuel timeout w = Some (w', out) ->
  Z.of_nat (ticks_received (trace w'))
  <= Z.of_nat (ticks_received (trace w)) + Z.max 0 (timeout / (2 * Second)) + 1
  /\ (snd out <> Some timeoutError ->
      Z.of_nat (ticks_received (trace w'))
      <= Z.of_nat (ticks_received (trace w)) + Z.max 0 (timeout / (2 * Second))).
Proof.
  unfold WaitForTaskCompletion. intros Hrun.
  apply poll_tick_bound in Hrun; [|reflexivity].
  cbn zeta in Hrun. cbn [NewTicker when] in Hrun.
  change (now (elapse w)) with (read_after (now w)) in Hrun.
  change (trace (elapse w)) with (trace w) in Hrun.
  pose proof (read_after_later (now w)) as Hstart.
  assert (Hmost : Z.max 0 ((now w + timeout - (read_after (now w) + 2 * Second))
                           / (2 * Second) + 1)
                  <= Z.max 0 (timeout / (2 * Second))).
  { change (2 * Second) with 2000000000. Z.div_mod_to_equations. lia. }
  destruct Hrun as [Hall Hfetched].
  split; [lia|]. intros Hne. specialize (Hfetched Hne). lia.
Qed.

(** X16.  With a timeout below the tick interval (zero and negative ones
    included) and a context that is never done, the call returns the
    timeout error at the first tick, two seconds after the ticker was
    started, when the clock has been read, and has sent nothing: the
    task is never fetched. *)
Theorem WaitForTaskCompletion_short_timeout fuel timeout w :
  timeout < 2 * Second ->
  doneAt ctx = None ->
  exists w',
    WaitForTaskCompletion rfuel c ctx taskID (S fuel) timeout w
    = Some (w', (None, Some timeoutError))
    /\ now w' = read_after (read_after (now w) + 2 * Second)
    /\ ticks_received (trace w') = S (ticks_received (trace w))
    /\ sent w' = sent w.
Proof.
  intros Hshort Hctx. unfold WaitForTaskCompletion.
  assert (Hsec : 0 < Second) by reflexivity.
  pose proof (read_after_later (now w)) as Hstart.
  pose proof (read_after_later (read_after (now w) + 2 * Second)) as Hread.
  rewrite poll_on_time by (assumption || (cbn [NewTicker when period]; lia)).
  cbn [NewTicker when]. change (now (elapse w)) with (read_after (now w)).
  replace (read_after (read_after (now w) + 2 * Second) >? now w + timeout) with true
    by (symmetry; apply Z.gtb_lt; lia).
  eexists. split; [reflexivity|]. split; [reflexivity|]. split; [|reflexivity].
  count_ticks.
Qed.

(** In a turn of the loop whose tick is not yet due when the
    context is done (or when the turn starts, the context being done
    already), the loop returns the error of the context at that instant:
    no tick is received, nothing is fetched. *)
Theorem poll_cancelled_before_tick fuel deadline ticker w d :
  doneAt ctx = Some d ->
  Z.max (now w) d < when ticker ->
  polling (S fuel) deadline ticker w
  = Some (advance_to (Z.max (now w) d) w, (None, Some (ErrCtx (doneWith ctx)))).
Proof.
  intros Hd Hbefore. cbn [poll]. unfold select_done_or. rewrite Hd.
  replace (Z.max (now w) d <? Z.max (now w) (when ticker)) with true
    by (symmetry; apply Z.ltb_lt; lia).
  cbn [advance_to now]. rewrite (ctx_Err_done ctx d) by (assumption || lia).
  reflexivity.
Qed.
End PollInvariants.

(** * The polling loop returns, and a new client is not logged in *)

Section PollReturns.
Context `{GoRuntime} `{Unmarshal TaskDetailDto}.
Variables (rfuel : nat) (c : Client) (ctx : Context) (taskID : string).

Lemma GetTask_returns (w : World) :
  maxRetries c < max_int -> (Z.to_nat (maxRetries c + 1) < rfuel)%nat ->
  GetTask rfuel c ctx taskID w <> None.
Proof.
  intros Hmax Hfuel. unfold GetTask, doRequest.
  destruct (attempts_return c ctx "GET" ("/api/v1/tasks/" +:+ taskID) (@None NoBody) true
              rfuel 0 None (Some zeroTaskDetailDto) w Hmax ltac:(lia))
    as (w' & out & Hrun); [now rewrite Z.sub_0_r|].
  rewrite Hrun. destruct out as [[err|] r]; discriminate.
Qed.

Lemma poll_returns fuel :
  forall deadline ticker (w : World),
    period ticker = 2 * Second ->
    (forall w0, GetTask rfuel c ctx taskID w0 <> None) ->
    Z.max 0 ((deadline - when ticker) / (2 * Second) + 1) < Z.of_nat fuel ->
    exists w' out, poll rfuel c ctx taskID fuel deadline ticker w = Some (w', out).
Proof.
  induction fuel as [|fuel IH]; intros deadline ticker w Hperiod Hget Hfuel; [lia|].
  cbn [poll].
  destruct (select_done_or ctx (now w) (when ticker)) as [t|t] eqn:Hsel; [eauto|].
  apply select_tick_instant in Hsel.
  change (now (elapse (log (EvTick t) (advance_to t w)))) with (read_after t).
  pose proof (read_after_later t) as Hread.
  destruct (read_after t >? deadline) eqn:Hlate; [eauto|].
  rewrite Z.gtb_ltb in Hlate. apply Z.ltb_ge in Hlate.
  specialize (Hget (elapse (log (EvTick t) (advance_to t w)))) as Hsome.
  destruct (GetTask rfuel c ctx taskID (elapse (log (EvTick t) (advance_to t w))))
    as [[w1 [task|e]]|]; [| eauto | contradiction].
  destruct (isTerminal (taskStatus task)); [eauto|].
  apply IH; [exact Hperiod | exact Hget |].
  cbn [Ticker_received when period]. rewrite Hperiod.
  change (2 * Second) with 2000000000 in *. clear IH Hget Hsome.
  Z.div_mod_to_equations. lia.
Qed.

(** X18.  [WaitForTaskCompletion] returns: unless [maxRetries] is the
    largest [int], its loop is over after at most [timeout / 2s + 1]
    turns (one, when the timeout is negative), however long the fetches
    take and whatever they and the context do. *)
Theorem WaitForTaskCompletion_returns (fuel : nat) (timeout : Z) (w : World) :
  maxRetries c < max_int ->
  (Z.to_nat (maxRetries c + 1) < rfuel)%nat ->
  Z.max 0 (timeout / (2 * Second)) < Z.of_nat fuel ->
  exists w' out,
    WaitForTaskCompletion rfuel c ctx taskID fuel timeout w = Some (w', out).
Proof.
  intros Hmax Hrfuel Hfuel. unfold WaitForTaskCompletion.
  apply poll_returns; [reflexivity | intros w0; now apply GetTask_returns |].
  cbn [NewTicker when]. change (now (elapse w)) with (read_after (now w)).
  pose proof (read_after_later (now w)) as Hstart.
  change (2 * Second) with 2000000000 in *.
  Z.div_mod_to_equations. lia.
Qed.
End PollReturns.

(** X19.  A client from [NewClient] has no token, and [SetHTTPClient]
    and [SetRetryPolicy] give it none: every request it sends goes to
    ["https://<host>:<port>"] followed by the path, without an
    [Authorization] header, also when the call requires authentication.
    Nothing is refused for want of a login. *)
Theorem NewClient_is_not_logged_in `{GoRuntime} {B R : Type} `{Marshal B} `{Unmarshal R}
    (host : string) (port : Z) (transport transport' : nat -> Request -> RoundTrip)
    (retries delay : Z) (ctx : Context) (method path : string) (body : option B)
    (requireAuth : bool) (fuel : nat) (result : option R) (w w' : World) out :
  let c := SetRetryPolicy (SetHTTPClient (NewClient host port transport) transport')
             retries delay in
  doRequest c ctx method path body requireAuth fuel result w = Some (w', out) ->
  exists reqs,
    sent w' = sent w ++ reqs
    /\ forall r, In r reqs ->
         URL r = "https://" +:+ host +:+ ":" +:+ itoa port +:+ path
         /\ Header r !! "Authorization" = None.
Proof.
  intros c Hrun.
  destruct (attempts_sends c ctx method path body requireAuth _ _ _ _ _ _ _ Hrun)
    as (reqs & Hsent & Hall).
  rewrite List.Forall_forall in Hall.
  exists reqs. split; [assumption|]. intros r Hr. apply Hall in Hr.
  destruct (buildRequest_shape c ctx _ _ _ requireAuth r Hr) as (_ & Hu & _).
  pose proof (buildRequest_authorization c ctx method path body requireAuth r Hr) as Hauth.
  split.
  - rewrite Hu. unfold c. cbn [baseURL SetRetryPolicy SetHTTPClient NewClient].
    now rewrite !append_assoc.
  - rewrite Hauth. unfold c. cbn [token SetRetryPolicy SetHTTPClient NewClient].
    now rewrite andb_false_r.
Qed.

Section Witnesses_further.
#[local] Existing Instances Sample.runtime Sample.marshalPayload Sample.unmarshalTask
  Sample.marshalLogin Sample.unmarshalAuth Sample.files Sample.marshalUpload
  Sample.unmarshalAsync.

Lemma doRequest_trace_shape_witness :
  exists w' out,
    doRequest Sample.flaky Background "GET" "/api/v1/tasks" (Some (Sample.Text "{}"))
      true 10 (Some zeroTaskDetailDto) Sample.start = Some (w', out)
    /\ exists tr,
         trace w' = trace Sample.start ++ tr
         /\ request_trace Sample.flaky tr
         /\ Z.of_nat (attempts_made tr) <= Z.max 0 (maxRetries Sample.flaky + 1).
Proof.
  eexists _, _. split; [reflexivity|].
  eapply (doRequest_trace_shape Sample.flaky Background "GET" "/api/v1/tasks"
           (Some (Sample.Text "{}")) true 10 (Some zeroTaskDetailDto) Sample.start);
    reflexivity.
Defined.

Lemma doRequest_success_from_attempt_witness :
  exists w' r,
    doRequest Sample.flaky Background "GET" "/api/v1/tasks" (Some (Sample.Text "{}"))
      true 10 (Some zeroTaskDetailDto) Sample.start = Some (w', (None, r))
    /\ exists w0,
         doRequestOnce Sample.flaky Background "GET" "/api/v1/tasks"
           (Some (Sample.Text "{}")) (Some zeroTaskDetailDto) true w0
         = (w', (None, r)).
Proof.
  eexists _, _. split; [reflexivity|].
  eapply (doRequest_success_from_attempt Sample.flaky Background "GET" "/api/v1/tasks"
           (Some (Sample.Text "{}")) true 10 (Some zeroTaskDetailDto) Sample.start).
  reflexivity.
Defined.

(** Under a context that is done: a refused connection is reported as
    the error of the context, a missing task as the 404 it is, and a
    response of 204 as a success. *)
Lemma doRequest_under_done_context_witness :
  (exists w',
     doRequest Sample.down Sample.cancelled "GET" "/api/v1/tasks"
       (Some (Sample.Text "{}")) true 1 (Some zeroTaskDetailDto) Sample.start
     = Some (w', (Some (ErrCtx Canceled), Some zeroTaskDetailDto))
     /\ trace w' = [EvAttempt 0] /\ length (sent w') = 1%nat)
  /\ (exists w',
        doRequest Sample.missing Sample.cancelled "GET" "/api/v1/tasks/17"
          (Some (Sample.Text "{}")) true 1 (Some zeroTaskDetailDto) Sample.start
        = Some (w', (Some (ErrAPI (mkAPIError 404 "no such task" false)),
                     Some zeroTaskDetailDto))
        /\ trace w' = [EvAttempt 0] /\ length (sent w') = 1%nat)
  /\ (exists w',
        doRequest Sample.silent Sample.cancelled "GET" "/api/v1/tasks/17"
          (Some (Sample.Text "{}")) true 1 (Some zeroTaskDetailDto) Sample.start
        = Some (w', (None, Some zeroTaskDetailDto))
        /\ trace w' = [EvAttempt 0] /\ length (sent w') = 1%nat).
Proof.
  split; [|split].
  - destruct (doRequest_under_done_context Sample.down Sample.cancelled "GET"
                "/api/v1/tasks" (Some (Sample.Text "{}")) true 0
                (Some zeroTaskDetailDto) Sample.start 0)
      as (w' & err & r & Hon & Hrun & Htrace);
      [simpl; lia | reflexivity | simpl; lia |].
    injection Hon as <- <- <-. eexists. split; [exact Hrun|]. split; reflexivity.
  - destruct (doRequest_under_done_context Sample.missing Sample.cancelled "GET"
                "/api/v1/tasks/17" (Some (Sample.Text "{}")) true 0
                (Some zeroTaskDetailDto) Sample.start 0)
      as (w' & err & r & Hon & Hrun & Htrace);
      [simpl; lia | reflexivity | simpl; lia |].
    injection Hon as <- <- <-. eexists. split; [exact Hrun|]. split; reflexivity.
  - destruct (doRequest_under_done_context Sample.silent Sample.cancelled "GET"
                "/api/v1/tasks/17" (Some (Sample.Text "{}")) true 0
                (Some zeroTaskDetailDto) Sample.start 0)
      as (w' & err & r & Hon & Hrun & Htrace);
      [simpl; lia | reflexivity | simpl; lia |].
    injection Hon as <- <- <-. eexists. split; [exact Hrun|]. split; reflexivity.
Defined.

Lemma doRequest_resends_one_request_witness :
  exists w' out,
    doRequest Sample.flaky Background "POST" "/api/v1/beacons/7/execute/getUid"
      (Some (Sample.Text "{}")) true 10 (Some zeroTaskDetailDto) Sample.start
    = Some (w', out)
    /\ exists reqs,
         sent w' = sent Sample.start ++ reqs
         /\ (forall r1 r2, In r1 reqs -> In r2 reqs -> r1 = r2)
         /\ (forall r, In r reqs ->
               Method r = "POST"
               /\ URL r = baseURL Sample.flaky +:+ "/api/v1/beacons/7/execute/getUid"
               /\ Header r !! "Content-Type" = Some ["application/json"]
               /\ Header r !! "Authorization" = Some ["Bearer tok"]).
Proof.
  eexists _, _. split; [reflexivity|].
  eapply (doRequest_resends_one_request Sample.flaky Background "POST"
           "/api/v1/beacons/7/execute/getUid" (Some (Sample.Text "{}")) true 10
           (Some zeroTaskDetailDto) Sample.start).
  reflexivity.
Defined.

Lemma doRequest_error_root_cause_witness :
  exists w' e r,
    doRequest Sample.down Background "GET" "/api/v1/tasks" (Some (Sample.Text "{}"))
      true 10 (Some zeroTaskDetailDto) Sample.start = Some (w', (Some e, r))
    /\ ((exists a, root_cause e = ErrAPI a)
        \/ root_cause e = ErrCtx (doneWith Background)).
Proof.
  eexists _, _, _. split; [reflexivity|].
  eapply (doRequest_error_root_cause Sample.down Background "GET" "/api/v1/tasks"
           (Some (Sample.Text "{}")) true 10 (Some zeroTaskDetailDto) Sample.start).
  - simpl. lia.
  - reflexivity.
Defined.

Lemma doRequestOnce_failure_origin_witness :
  (Retryable (mkAPIError 0 "request failed: dial tcp: connection refused" true) = true ->
   exists req,
     sent (fst (doRequestOnce Sample.down Background "GET" "/api/v1/tasks"
                  (Some (Sample.Text "{}")) (Some zeroTaskDetailDto) true Sample.start))
     = sent Sample.start ++ [req])
  /\ (sent (fst (doRequestOnce Sample.down Background "GET" "/api/v1/tasks"
                   (Some (Sample.Text "{}")) (Some zeroTaskDetailDto) true Sample.start))
      = sent Sample.start ->
      fst (doRequestOnce Sample.down Background "GET" "/api/v1/tasks"
             (Some (Sample.Text "{}")) (Some zeroTaskDetailDto) true Sample.start)
      = Sample.start
      /\ StatusCode (mkAPIError 0 "request failed: dial tcp: connection refused" true) = 0
      /\ Retryable (mkAPIError 0 "request failed: dial tcp: connection refused" true)
         = false).
Proof.
  exact (doRequestOnce_failure_origin Sample.down Background "GET" "/api/v1/tasks"
           (Some (Sample.Text "{}")) (Some zeroTaskDetailDto) true Sample.start
           (mkAPIError 0 "request failed: dial tcp: connection refused" true) eq_refl).
Defined.

Lemma doRequestOnce_success_is_2xx_witness :
  exists req status respBody,
    buildRequest Sample.busy Background "GET" "/api/v1/tasks/17" (@None NoBody) true
    = inr req
    /\ reply (httpClient Sample.busy (length (sent Sample.start)) req)
       = Response status (Val respBody)
    /\ 200 <= status < 300.
Proof.
  exact (doRequestOnce_success_is_2xx Sample.busy Background "GET" "/api/v1/tasks/17"
           (@None NoBody) (Some zeroTaskDetailDto) true Sample.start eq_refl).
Defined.

Lemma endpoint_error_chain_witness :
  exists w' e,
    GetTask 10 Sample.missing Background "17" Sample.start = Some (w', Err e)
    /\ exists cause,
         Unwrap e = Some cause
         /\ Error_text e = "failed to get task: " +:+ Error_text cause
         /\ Surfaced Sample.missing cause
         /\ (0 <= maxRetries Sample.missing ->
             (exists a, root_cause e = ErrAPI a)
             \/ root_cause e = ErrCtx (doneWith Background)).
Proof.
  eexists _, _. split; [reflexivity|].
  eapply (endpoint_error_chain Sample.missing Background "GET" "/api/v1/tasks/17"
            (@None NoBody) zeroTaskDetailDto "failed to get task: " 10 Sample.start).
  reflexivity.
Defined.

Lemma endpoint_empty_body_witness :
  exists w', GetTask 1 Sample.silent Background "17" Sample.start
             = Some (w', Ok zeroTaskDetailDto).
Proof.
  refine (endpoint_empty_body Sample.silent Background "GET" "/api/v1/tasks/17"
            (@None NoBody) zeroTaskDetailDto "failed to get task: " 0 Sample.start
            _ 204 _ eq_refl eq_refl _).
  - simpl. lia.
  - lia.
Defined.

Lemma Login_failure_keeps_client_witness :
  exists w1 c1 e,
    Login 1 Sample.missing Background "operator" "hunter2" 0 Sample.start
    = Some (w1, c1, Err e)
    /\ c1 = Sample.missing
    /\ exists cause,
         Unwrap e = Some cause
         /\ Error_text e = "login failed: " +:+ Error_text cause
         /\ Surfaced Sample.missing cause.
Proof.
  eexists _, _, _. split; [reflexivity|].
  eapply (Login_failure_keeps_client Sample.missing Background "operator" "hunter2" 0 1
            Sample.start).
  reflexivity.
Defined.

Lemma Login_empty_body_clears_token_witness :
  exists w',
    Login 1 Sample.silent Background "operator" "hunter2" 0 Sample.start
    = Some (w', setToken Sample.silent "", Ok zeroAuthDto)
    /\ forall (B R : Type) (MB : Marshal B) (UR : Unmarshal R) ctx' method path
              (body : option B) (result : option R) w0 req',
         sent (fst (doRequestOnce (setToken Sample.silent "") ctx' method path body
                      result true w0))
         = sent w0 ++ [req'] ->
         Header req' !! "Authorization" = None.
Proof.
  refine (Login_empty_body_clears_token Sample.silent Background "operator" "hunter2" 0
            0 Sample.start _ 204 _ eq_refl eq_refl _).
  - simpl. lia.
  - lia.
Defined.

(** A file that cannot be read, and one that can. *)
Lemma Upload_reads_then_sends_witness :
  (exists e,
     Upload 10 Sample.flaky Background "7" "/tmp/nothing" Sample.start
     = Some (Sample.start, Err e)
     /\ Unwrap e = Some (ErrNew "open /tmp/nothing: no such file or directory"))
  /\ exists w' out reqs dto,
       Upload 10 Sample.flaky Background "7" "/tmp/payload.bin" Sample.start
       = Some (w', out)
       /\ sent w' = sent Sample.start ++ reqs
       /\ UploadDto.File dto = "@files/payload.bin"
       /\ UploadDto.Files dto = {["payload.bin" := "TVo="]}
       /\ forall r, In r reqs ->
            Method r = "POST"
            /\ URL r = baseURL Sample.flaky +:+ "/api/v1/beacons/7/execute/upload"
            /\ exists jsonData, json_Marshal dto = Val jsonData
                                /\ Body r = Some jsonData.
Proof.
  split.
  - edestruct (Upload_reads_then_sends Sample.flaky Background "7" "/tmp/nothing" 10
                 Sample.start Sample.start) as [Hunreadable _]; [reflexivity|].
    destruct (Hunreadable _ eq_refl) as (_ & e & He & Hunwrap & _).
    exists e. split; [now rewrite <- He | exact Hunwrap].
  - edestruct (Upload_reads_then_sends Sample.flaky Background "7" "/tmp/payload.bin" 10
                 Sample.start) as [_ Hreadable]; [reflexivity|].
    destruct (Hreadable "MZ" eq_refl) as (reqs & dto & Hsent & Hfile & Hfiles & Hreqs).
    eexists _, _, reqs, dto. split; [reflexivity|].
    split; [exact Hsent|]. split; [exact Hfile|]. split; [exact Hfiles|]. exact Hreqs.
Defined.

Lemma WaitForTaskCompletion_outcomes_witness :
  exists w' out,
    WaitForTaskCompletion 1 Sample.finishing Background "17" 5 (10 * Second) Sample.start
    = Some (w', out)
    /\ PollOutcome Sample.finishing Background out.
Proof.
  eexists _, _. split; [reflexivity|].
  eapply (WaitForTaskCompletion_outcomes 1 Sample.finishing Background "17" 5
            (10 * Second) Sample.start).
  reflexivity.
Defined.

(** The task is completed at the first fetch; the call still takes two
    seconds. *)
Lemma WaitForTaskCompletion_takes_a_tick_witness :
  exists w' out,
    WaitForTaskCompletion 1 Sample.finished Background "17" 5 (10 * Second) Sample.start
    = Some (w', out)
    /\ (out = (None, Some (ErrCtx (doneWith Background)))
        \/ now Sample.start + 2 * Second <= now w').
Proof.
  eexists _, _. split; [reflexivity|].
  eapply (WaitForTaskCompletion_takes_a_tick 1 Sample.finished Background "17" 5
            (10 * Second) Sample.start).
  reflexivity.
Defined.

Lemma WaitForTaskCompletion_tick_bound_witness :
  exists w' out,
    WaitForTaskCompletion 1 Sample.slow Background "17" 5 (5 * Second) Sample.start
    = Some (w', out)
    /\ Z.of_nat (ticks_received (trace w'))
       <= Z.of_nat (ticks_received (trace Sample.start))
          + Z.max 0 (5 * Second / (2 * Second)) + 1
    /\ (snd out <> Some timeoutError ->
        Z.of_nat (ticks_received (trace w'))
        <= Z.of_nat (ticks_received (trace Sample.start))
           + Z.max 0 (5 * Second / (2 * Second))).
Proof.
  eexists _, _. split; [reflexivity|].
  eapply (WaitForTaskCompletion_tick_bound 1 Sample.slow Background "17" 5
            (5 * Second) Sample.start).
  reflexivity.
Defined.

(** The task is completed, the timeout is one second: the task is never
    fetched. *)
Lemma WaitForTaskCompletion_short_timeout_witness :
  exists w',
    WaitForTaskCompletion 1 Sample.finished Background "17" 1 Second Sample.start
    = Some (w', (None, Some timeoutError))
    /\ now w' = now Sample.start + 2 * Second + 2000
    /\ ticks_received (trace w') = 1%nat
    /\ sent w' = sent Sample.start.
Proof.
  destruct (WaitForTaskCompletion_short_timeout 1 Sample.finished Background "17" 0
              Second Sample.start) as (w' & Hrun & Hnow & Hticks & Hsent);
    [reflexivity | reflexivity |].
  exists w'. split; [exact Hrun|]. split; [rewrite Hnow; reflexivity|].
  split; [rewrite Hticks; reflexivity | exact Hsent].
Defined.

Lemma poll_cancelled_before_tick_witness :
  poll 1 Sample.finished (mkContext (Some Second) Canceled) "17" 1 (10 * Second)
    (NewTicker 0 (2 * Second)) Sample.start
  = Some (advance_to (Z.max (now Sample.start) Second) Sample.start,
          (None, Some (ErrCtx Canceled))).
Proof.
  apply (poll_cancelled_before_tick 1 Sample.finished (mkContext (Some Second) Canceled)
           "17" 0 (10 * Second) (NewTicker 0 (2 * Second)) Sample.start Second);
    reflexivity.
Defined.

Lemma doRequest_returns_witness :
  exists w' out,
    doRequest Sample.down Background "GET" "/api/v1/tasks" (Some (Sample.Text "{}"))
      true 4 (Some zeroTaskDetailDto) Sample.start = Some (w', out).
Proof.
  apply (doRequest_returns Sample.down Background "GET" "/api/v1/tasks"
           (Some (Sample.Text "{}")) true 4 (Some zeroTaskDetailDto) Sample.start).
  - reflexivity.
  - simpl. lia.
Defined.

Lemma WaitForTaskCompletion_returns_witness :
  exists w' out,
    WaitForTaskCompletion 5 Sample.slow Background "17" 3 (5 * Second) Sample.start
    = Some (w', out).
Proof.
  apply (WaitForTaskCompletion_returns 5 Sample.slow Background "17" 3 (5 * Second)
           Sample.start).
  - reflexivity.
  - simpl. lia.
  - reflexivity.
Defined.

Lemma NewClient_is_not_logged_in_witness :
  exists w' out reqs,
    doRequest (SetRetryPolicy
                 (SetHTTPClient (NewClient "teamserver" 50443 (fun _ _ => Sample.refused))
                    (fun _ _ => Sample.answers 10 200 "IN_PROGRESS")) 1 Second)
      Background "GET" "/api/v1/tasks/17" (@None NoBody) true 3
      (Some zeroTaskDetailDto) Sample.start = Some (w', out)
    /\ sent w' = sent Sample.start ++ reqs
    /\ forall r, In r reqs ->
         URL r = "https://teamserver:50443/api/v1/tasks/17"
         /\ Header r !! "Authorization" = None.
Proof.
  edestruct (NewClient_is_not_logged_in "teamserver" 50443 (fun _ _ => Sample.refused)
               (fun _ _ => Sample.answers 10 200 "IN_PROGRESS") 1 Second Background
               "GET" "/api/v1/tasks/17" (@None NoBody) true 3 (Some zeroTaskDetailDto)
               Sample.start) as (reqs & Hsent & Hreqs); [reflexivity|].
  eexists _, _, reqs. split; [reflexivity|]. split; [exact Hsent | exact Hreqs].
Defined.
End Witnesses_further.
